(** * Per-strategy workspace cache and live paper-session synchronizer

    A shallow embedding of the workspace controller of the trading
    front end: the [HomePage] component (strategy selection, code
    editing, save / rename / delete, backtest and tuning runs, the paper
    session and its polling effect) and the favourites index kept by the
    [Sidebar] component.

    React state is modelled by explicit state passing.  An [async]
    handler is a finite tree of state updates and awaited remote calls;
    the values a handler closes over are the state of the render that
    created it, passed as the parameter [c].  Functional updates
    ([setX(prev => ...)]) read the state that is current when they run,
    plain updates ([setX(v)]) write a value computed from the closure.

    JavaScript numbers are only copied by this code and are represented
    by [Z]; objects used as dictionaries are finite maps keyed by the
    strategy path. *)

From Stdlib Require Import String Ascii ZArith List Bool Lia.
From stdpp Require Import base option list gmap strings pretty.

Local Open Scope string_scope.
Local Open Scope list_scope.

(** ** Data model *)

Definition number : Type := Z.

Bind Scope Z_scope with number.

Inductive ParamType : Type := TInt | TFloat.

Inductive WorkspaceView : Type := Coding | Backtesting | Ml | Paper.

Inductive Broker : Type := Local | Alpaca.

#[global] Instance ParamType_eq_dec : EqDecision ParamType.
Proof. solve_decision. Defined.

#[global] Instance WorkspaceView_eq_dec : EqDecision WorkspaceView.
Proof. solve_decision. Defined.

(** [Strategy] of Sidebar.tsx. *)
Record Strategy : Type := mkStrategy {
  name : string;
  path : string;
  updated_at : string
}.

(** [BacktestResult]: the handlers store and forward it whole; the
    optional members of the source type play no part and are left out. *)
Record BacktestResult : Type := mkBacktestResult {
  run_id : string;
  final_value : number;
  pnl : number;
  win_rate : number;
  equity_curve : list (string * number)
}.

Record StrategyParamSpec : Type := mkParamSpec {
  param_name : string;
  param_type : ParamType;
  param_default : number;
  suggested_min : number;
  suggested_max : number
}.

Record MlRange : Type := mkMlRange {
  range_min : number;
  range_max : number;
  range_type : ParamType
}.

Record MlSessionCache : Type := mkMlSessionCache {
  resultText : string;
  bestRun : option BacktestResult;
  ml_error : string;
  ranges : gmap string MlRange
}.

Record PaperSessionInfo : Type := mkPaperSessionInfo {
  session_id : string;
  strategy_path : string;
  cash : number;
  position : number;
  status : string
}.

Record PaperStateResponse : Type := mkPaperStateResponse {
  session : PaperSessionInfo;
  snapshot : BacktestResult
}.

Record PaperSessionCache : Type := mkPaperSessionCache {
  sessionId : string;
  paper_error : string;
  state : option PaperStateResponse
}.

(** Body of the answer of [/optimize/run]. *)
Record OptimizeResponse : Type := mkOptimizeResponse {
  best_value : number;
  best_params : list (string * number)
}.

(** Body of the answer of [/strategy-params/{path}]; [params] is [None]
    when the member is not an array. *)
Record ParamsResponse : Type := mkParamsResponse {
  params : option (list StrategyParamSpec)
}.

(** ** Component state

    One field per [useState] cell of [HomePage] that the workspace
    operations read or write.  The market form fields (symbol, interval,
    period, ...) only travel inside request bodies and are left out. *)

Record HomePage : Type := mkHomePage {
  view : WorkspaceView;
  strategies : list Strategy;
  selectedPath : option string;
  code : string;
  codeByStrategy : gmap string string;
  result : option BacktestResult;
  backtestByStrategy : gmap string BacktestResult;
  paramSpecsByStrategy : gmap string (list StrategyParamSpec);
  mlByStrategy : gmap string MlSessionCache;
  mlBestResult : option BacktestResult;
  optuna : string;
  mlLoading : bool;
  mlError : string;
  mlParamSpecs : list StrategyParamSpec;
  mlRanges : gmap string MlRange;
  paperSession : string;
  paperError : string;
  paperState : option PaperStateResponse;
  paperByStrategy : gmap string PaperSessionCache;
  paperLoading : bool
}.

Definition setView (v : WorkspaceView) (h : HomePage) : HomePage :=
  {| view := v; strategies := strategies h; selectedPath := selectedPath h; code := code h;
     codeByStrategy := codeByStrategy h; result := result h;
     backtestByStrategy := backtestByStrategy h;
     paramSpecsByStrategy := paramSpecsByStrategy h; mlByStrategy := mlByStrategy h;
     mlBestResult := mlBestResult h; optuna := optuna h; mlLoading := mlLoading h;
     mlError := mlError h; mlParamSpecs := mlParamSpecs h; mlRanges := mlRanges h;
     paperSession := paperSession h; paperError := paperError h; paperState := paperState h;
     paperByStrategy := paperByStrategy h; paperLoading := paperLoading h |}.

Definition setStrategies (v : list Strategy) (h : HomePage) : HomePage :=
  {| view := view h; strategies := v; selectedPath := selectedPath h; code := code h;
     codeByStrategy := codeByStrategy h; result := result h;
     backtestByStrategy := backtestByStrategy h;
     paramSpecsByStrategy := paramSpecsByStrategy h; mlByStrategy := mlByStrategy h;
     mlBestResult := mlBestResult h; optuna := optuna h; mlLoading := mlLoading h;
     mlError := mlError h; mlParamSpecs := mlParamSpecs h; mlRanges := mlRanges h;
     paperSession := paperSession h; paperError := paperError h; paperState := paperState h;
     paperByStrategy := paperByStrategy h; paperLoading := paperLoading h |}.

Definition setSelectedPath (v : option string) (h : HomePage) : HomePage :=
  {| view := view h; strategies := strategies h; selectedPath := v; code := code h;
     codeByStrategy := codeByStrategy h; result := result h;
     backtestByStrategy := backtestByStrategy h;
     paramSpecsByStrategy := paramSpecsByStrategy h; mlByStrategy := mlByStrategy h;
     mlBestResult := mlBestResult h; optuna := optuna h; mlLoading := mlLoading h;
     mlError := mlError h; mlParamSpecs := mlParamSpecs h; mlRanges := mlRanges h;
     paperSession := paperSession h; paperError := paperError h; paperState := paperState h;
     paperByStrategy := paperByStrategy h; paperLoading := paperLoading h |}.

Definition setCode (v : string) (h : HomePage) : HomePage :=
  {| view := view h; strategies := strategies h; selectedPath := selectedPath h; code := v;
     codeByStrategy := codeByStrategy h; result := result h;
     backtestByStrategy := backtestByStrategy h;
     paramSpecsByStrategy := paramSpecsByStrategy h; mlByStrategy := mlByStrategy h;
     mlBestResult := mlBestResult h; optuna := optuna h; mlLoading := mlLoading h;
     mlError := mlError h; mlParamSpecs := mlParamSpecs h; mlRanges := mlRanges h;
     paperSession := paperSession h; paperError := paperError h; paperState := paperState h;
     paperByStrategy := paperByStrategy h; paperLoading := paperLoading h |}.

Definition setCodeByStrategy (f : gmap string string → gmap string string) (h : HomePage) : HomePage :=
  {| view := view h; strategies := strategies h; selectedPath := selectedPath h;
     code := code h; codeByStrategy := f (codeByStrategy h); result := result h;
     backtestByStrategy := backtestByStrategy h;
     paramSpecsByStrategy := paramSpecsByStrategy h; mlByStrategy := mlByStrategy h;
     mlBestResult := mlBestResult h; optuna := optuna h; mlLoading := mlLoading h;
     mlError := mlError h; mlParamSpecs := mlParamSpecs h; mlRanges := mlRanges h;
     paperSession := paperSession h; paperError := paperError h; paperState := paperState h;
     paperByStrategy := paperByStrategy h; paperLoading := paperLoading h |}.

Definition setResult (v : option BacktestResult) (h : HomePage) : HomePage :=
  {| view := view h; strategies := strategies h; selectedPath := selectedPath h;
     code := code h; codeByStrategy := codeByStrategy h; result := v;
     backtestByStrategy := backtestByStrategy h;
     paramSpecsByStrategy := paramSpecsByStrategy h; mlByStrategy := mlByStrategy h;
     mlBestResult := mlBestResult h; optuna := optuna h; mlLoading := mlLoading h;
     mlError := mlError h; mlParamSpecs := mlParamSpecs h; mlRanges := mlRanges h;
     paperSession := paperSession h; paperError := paperError h; paperState := paperState h;
     paperByStrategy := paperByStrategy h; paperLoading := paperLoading h |}.

Definition setBacktestByStrategy (f : gmap string BacktestResult → gmap string BacktestResult) (h : HomePage) : HomePage :=
  {| view := view h; strategies := strategies h; selectedPath := selectedPath h;
     code := code h; codeByStrategy := codeByStrategy h; result := result h;
     backtestByStrategy := f (backtestByStrategy h);
     paramSpecsByStrategy := paramSpecsByStrategy h; mlByStrategy := mlByStrategy h;
     mlBestResult := mlBestResult h; optuna := optuna h; mlLoading := mlLoading h;
     mlError := mlError h; mlParamSpecs := mlParamSpecs h; mlRanges := mlRanges h;
     paperSession := paperSession h; paperError := paperError h; paperState := paperState h;
     paperByStrategy := paperByStrategy h; paperLoading := paperLoading h |}.

Definition setParamSpecsByStrategy (f : gmap string (list StrategyParamSpec) → gmap string (list StrategyParamSpec)) (h : HomePage) : HomePage :=
  {| view := view h; strategies := strategies h; selectedPath := selectedPath h;
     code := code h; codeByStrategy := codeByStrategy h; result := result h;
     backtestByStrategy := backtestByStrategy h;
     paramSpecsByStrategy := f (paramSpecsByStrategy h); mlByStrategy := mlByStrategy h;
     mlBestResult := mlBestResult h; optuna := optuna h; mlLoading := mlLoading h;
     mlError := mlError h; mlParamSpecs := mlParamSpecs h; mlRanges := mlRanges h;
     paperSession := paperSession h; paperError := paperError h; paperState := paperState h;
     paperByStrategy := paperByStrategy h; paperLoading := paperLoading h |}.

Definition setMlByStrategy (f : gmap string MlSessionCache → gmap string MlSessionCache) (h : HomePage) : HomePage :=
  {| view := view h; strategies := strategies h; selectedPath := selectedPath h;
     code := code h; codeByStrategy := codeByStrategy h; result := result h;
     backtestByStrategy := backtestByStrategy h;
     paramSpecsByStrategy := paramSpecsByStrategy h; mlByStrategy := f (mlByStrategy h);
     mlBestResult := mlBestResult h; optuna := optuna h; mlLoading := mlLoading h;
     mlError := mlError h; mlParamSpecs := mlParamSpecs h; mlRanges := mlRanges h;
     paperSession := paperSession h; paperError := paperError h; paperState := paperState h;
     paperByStrategy := paperByStrategy h; paperLoading := paperLoading h |}.

Definition setMlBestResult (v : option BacktestResult) (h : HomePage) : HomePage :=
  {| view := view h; strategies := strategies h; selectedPath := selectedPath h;
     code := code h; codeByStrategy := codeByStrategy h; result := result h;
     backtestByStrategy := backtestByStrategy h;
     paramSpecsByStrategy := paramSpecsByStrategy h; mlByStrategy := mlByStrategy h;
     mlBestResult := v; optuna := optuna h; mlLoading := mlLoading h; mlError := mlError h;
     mlParamSpecs := mlParamSpecs h; mlRanges := mlRanges h; paperSession := paperSession h;
     paperError := paperError h; paperState := paperState h;
     paperByStrategy := paperByStrategy h; paperLoading := paperLoading h |}.

Definition setOptuna (v : string) (h : HomePage) : HomePage :=
  {| view := view h; strategies := strategies h; selectedPath := selectedPath h;
     code := code h; codeByStrategy := codeByStrategy h; result := result h;
     backtestByStrategy := backtestByStrategy h;
     paramSpecsByStrategy := paramSpecsByStrategy h; mlByStrategy := mlByStrategy h;
     mlBestResult := mlBestResult h; optuna := v; mlLoading := mlLoading h;
     mlError := mlError h; mlParamSpecs := mlParamSpecs h; mlRanges := mlRanges h;
     paperSession := paperSession h; paperError := paperError h; paperState := paperState h;
     paperByStrategy := paperByStrategy h; paperLoading := paperLoading h |}.

Definition setMlLoading (v : bool) (h : HomePage) : HomePage :=
  {| view := view h; strategies := strategies h; selectedPath := selectedPath h;
     code := code h; codeByStrategy := codeByStrategy h; result := result h;
     backtestByStrategy := backtestByStrategy h;
     paramSpecsByStrategy := paramSpecsByStrategy h; mlByStrategy := mlByStrategy h;
     mlBestResult := mlBestResult h; optuna := optuna h; mlLoading := v; mlError := mlError h;
     mlParamSpecs := mlParamSpecs h; mlRanges := mlRanges h; paperSession := paperSession h;
     paperError := paperError h; paperState := paperState h;
     paperByStrategy := paperByStrategy h; paperLoading := paperLoading h |}.

Definition setMlError (v : string) (h : HomePage) : HomePage :=
  {| view := view h; strategies := strategies h; selectedPath := selectedPath h;
     code := code h; codeByStrategy := codeByStrategy h; result := result h;
     backtestByStrategy := backtestByStrategy h;
     paramSpecsByStrategy := paramSpecsByStrategy h; mlByStrategy := mlByStrategy h;
     mlBestResult := mlBestResult h; optuna := optuna h; mlLoading := mlLoading h;
     mlError := v; mlParamSpecs := mlParamSpecs h; mlRanges := mlRanges h;
     paperSession := paperSession h; paperError := paperError h; paperState := paperState h;
     paperByStrategy := paperByStrategy h; paperLoading := paperLoading h |}.

Definition setMlParamSpecs (v : list StrategyParamSpec) (h : HomePage) : HomePage :=
  {| view := view h; strategies := strategies h; selectedPath := selectedPath h;
     code := code h; codeByStrategy := codeByStrategy h; result := result h;
     backtestByStrategy := backtestByStrategy h;
     paramSpecsByStrategy := paramSpecsByStrategy h; mlByStrategy := mlByStrategy h;
     mlBestResult := mlBestResult h; optuna := optuna h; mlLoading := mlLoading h;
     mlError := mlError h; mlParamSpecs := v; mlRanges := mlRanges h;
     paperSession := paperSession h; paperError := paperError h; paperState := paperState h;
     paperByStrategy := paperByStrategy h; paperLoading := paperLoading h |}.

Definition setMlRanges (v : gmap string MlRange) (h : HomePage) : HomePage :=
  {| view := view h; strategies := strategies h; selectedPath := selectedPath h;
     code := code h; codeByStrategy := codeByStrategy h; result := result h;
     backtestByStrategy := backtestByStrategy h;
     paramSpecsByStrategy := paramSpecsByStrategy h; mlByStrategy := mlByStrategy h;
     mlBestResult := mlBestResult h; optuna := optuna h; mlLoading := mlLoading h;
     mlError := mlError h; mlParamSpecs := mlParamSpecs h; mlRanges := v;
     paperSession := paperSession h; paperError := paperError h; paperState := paperState h;
     paperByStrategy := paperByStrategy h; paperLoading := paperLoading h |}.

Definition setPaperSession (v : string) (h : HomePage) : HomePage :=
  {| view := view h; strategies := strategies h; selectedPath := selectedPath h;
     code := code h; codeByStrategy := codeByStrategy h; result := result h;
     backtestByStrategy := backtestByStrategy h;
     paramSpecsByStrategy := paramSpecsByStrategy h; mlByStrategy := mlByStrategy h;
     mlBestResult := mlBestResult h; optuna := optuna h; mlLoading := mlLoading h;
     mlError := mlError h; mlParamSpecs := mlParamSpecs h; mlRanges := mlRanges h;
     paperSession := v; paperError := paperError h; paperState := paperState h;
     paperByStrategy := paperByStrategy h; paperLoading := paperLoading h |}.

Definition setPaperError (v : string) (h : HomePage) : HomePage :=
  {| view := view h; strategies := strategies h; selectedPath := selectedPath h;
     code := code h; codeByStrategy := codeByStrategy h; result := result h;
     backtestByStrategy := backtestByStrategy h;
     paramSpecsByStrategy := paramSpecsByStrategy h; mlByStrategy := mlByStrategy h;
     mlBestResult := mlBestResult h; optuna := optuna h; mlLoading := mlLoading h;
     mlError := mlError h; mlParamSpecs := mlParamSpecs h; mlRanges := mlRanges h;
     paperSession := paperSession h; paperError := v; paperState := paperState h;
     paperByStrategy := paperByStrategy h; paperLoading := paperLoading h |}.

Definition setPaperState (v : option PaperStateResponse) (h : HomePage) : HomePage :=
  {| view := view h; strategies := strategies h; selectedPath := selectedPath h;
     code := code h; codeByStrategy := codeByStrategy h; result := result h;
     backtestByStrategy := backtestByStrategy h;
     paramSpecsByStrategy := paramSpecsByStrategy h; mlByStrategy := mlByStrategy h;
     mlBestResult := mlBestResult h; optuna := optuna h; mlLoading := mlLoading h;
     mlError := mlError h; mlParamSpecs := mlParamSpecs h; mlRanges := mlRanges h;
     paperSession := paperSession h; paperError := paperError h; paperState := v;
     paperByStrategy := paperByStrategy h; paperLoading := paperLoading h |}.

Definition setPaperByStrategy (f : gmap string PaperSessionCache → gmap string PaperSessionCache) (h : HomePage) : HomePage :=
  {| view := view h; strategies := strategies h; selectedPath := selectedPath h;
     code := code h; codeByStrategy := codeByStrategy h; result := result h;
     backtestByStrategy := backtestByStrategy h;
     paramSpecsByStrategy := paramSpecsByStrategy h; mlByStrategy := mlByStrategy h;
     mlBestResult := mlBestResult h; optuna := optuna h; mlLoading := mlLoading h;
     mlError := mlError h; mlParamSpecs := mlParamSpecs h; mlRanges := mlRanges h;
     paperSession := paperSession h; paperError := paperError h; paperState := paperState h;
     paperByStrategy := f (paperByStrategy h); paperLoading := paperLoading h |}.

Definition setPaperLoading (v : bool) (h : HomePage) : HomePage :=
  {| view := view h; strategies := strategies h; selectedPath := selectedPath h;
     code := code h; codeByStrategy := codeByStrategy h; result := result h;
     backtestByStrategy := backtestByStrategy h;
     paramSpecsByStrategy := paramSpecsByStrategy h; mlByStrategy := mlByStrategy h;
     mlBestResult := mlBestResult h; optuna := optuna h; mlLoading := mlLoading h;
     mlError := mlError h; mlParamSpecs := mlParamSpecs h; mlRanges := mlRanges h;
     paperSession := paperSession h; paperError := paperError h; paperState := paperState h;
     paperByStrategy := paperByStrategy h; paperLoading := v |}.

(** ** The world around the component

    [home] is the state of [HomePage]; [favorites], [editingPath] and
    [editingName] are the state of [Sidebar]; [localStorage] is the value
    stored under [FAVORITES_KEY]; [alerts] and [consoleErrors] collect
    what [alert] and [console.error] were given.

    [activeEffect] identifies the run of the hydration effect whose local
    flag [active] is still [true]: the cleanup of a run clears its flag
    just before the next run starts.  [codeLog] is a history variable: it
    records, oldest first, every value written into [codeByStrategy] by a
    fetch, an edit or a save. *)

Record World : Type := mkWorld {
  home : HomePage;
  favorites : list string;
  editingPath : option string;
  editingName : string;
  localStorage : option (list string);
  alerts : list string;
  consoleErrors : list string;
  activeEffect : nat;
  codeLog : list (string * string)
}.

Definition withHome (f : HomePage → HomePage) (w : World) : World :=
  {| home := f (home w); favorites := favorites w; editingPath := editingPath w;
     editingName := editingName w; localStorage := localStorage w; alerts := alerts w;
     consoleErrors := consoleErrors w; activeEffect := activeEffect w; codeLog := codeLog w |}.

Definition withFavorites (v : list string) (w : World) : World :=
  {| home := home w; favorites := v; editingPath := editingPath w;
     editingName := editingName w; localStorage := localStorage w; alerts := alerts w;
     consoleErrors := consoleErrors w; activeEffect := activeEffect w; codeLog := codeLog w |}.

Definition withEditingPath (v : option string) (w : World) : World :=
  {| home := home w; favorites := favorites w; editingPath := v; editingName := editingName w;
     localStorage := localStorage w; alerts := alerts w; consoleErrors := consoleErrors w;
     activeEffect := activeEffect w; codeLog := codeLog w |}.

Definition withEditingName (v : string) (w : World) : World :=
  {| home := home w; favorites := favorites w; editingPath := editingPath w; editingName := v;
     localStorage := localStorage w; alerts := alerts w; consoleErrors := consoleErrors w;
     activeEffect := activeEffect w; codeLog := codeLog w |}.

Definition withLocalStorage (v : option (list string)) (w : World) : World :=
  {| home := home w; favorites := favorites w; editingPath := editingPath w;
     editingName := editingName w; localStorage := v; alerts := alerts w;
     consoleErrors := consoleErrors w; activeEffect := activeEffect w; codeLog := codeLog w |}.

Definition withAlerts (f : list string → list string) (w : World) : World :=
  {| home := home w; favorites := favorites w; editingPath := editingPath w;
     editingName := editingName w; localStorage := localStorage w; alerts := f (alerts w);
     consoleErrors := consoleErrors w; activeEffect := activeEffect w; codeLog := codeLog w |}.

Definition withConsoleErrors (f : list string → list string) (w : World) : World :=
  {| home := home w; favorites := favorites w; editingPath := editingPath w;
     editingName := editingName w; localStorage := localStorage w; alerts := alerts w;
     consoleErrors := f (consoleErrors w); activeEffect := activeEffect w;
     codeLog := codeLog w |}.

Definition withActiveEffect (v : nat) (w : World) : World :=
  {| home := home w; favorites := favorites w; editingPath := editingPath w;
     editingName := editingName w; localStorage := localStorage w; alerts := alerts w;
     consoleErrors := consoleErrors w; activeEffect := v; codeLog := codeLog w |}.

Definition withCodeLog (f : list (string * string) → list (string * string)) (w : World) : World :=
  {| home := home w; favorites := favorites w; editingPath := editingPath w;
     editingName := editingName w; localStorage := localStorage w; alerts := alerts w;
     consoleErrors := consoleErrors w; activeEffect := activeEffect w;
     codeLog := f (codeLog w) |}.

Definition onHome (f : HomePage → HomePage) : World → World := withHome f.

(** ** JavaScript helpers *)

(** Truthiness of a [string | null] value: [null] and the empty string
    are falsy. *)
Definition truthyPath (p : option string) : option string :=
  match p with
  | Some s => if decide (s = "") then None else Some s
  | None => None
  end.

(** [String((err as Error).message || err)]: the message of the error,
    or the rendering of the error object when the message is empty. *)
Definition errText (message : string) : string :=
  if decide (message = "") then "Error" else message.

(** [s.lastIndexOf(ch)] for a one-character pattern; [None] stands for
    the result [-1]. *)
Fixpoint lastIndexOf (ch : ascii) (s : string) : option nat :=
  match s with
  | EmptyString => None
  | String a rest =>
      match lastIndexOf ch rest with
      | Some i => Some (S i)
      | None => if Ascii.eqb a ch then Some 0 else None
      end
  end.

(** [s.slice(i)] and [s.slice(0, j)] for indices inside the string. *)
Definition sliceFrom (i : nat) (s : string) : string :=
  substring i (String.length s - i) s.

Definition sliceTo (j : nat) (s : string) : string := substring 0 j s.

Definition endsWith (s suffix : string) : bool :=
  (String.length suffix <=? String.length s)%nat
  && String.eqb (sliceFrom (String.length s - String.length suffix) s) suffix.

(** [s.trim()].  A string is the sequence of bytes of the UTF-8
    encoding of the text.  [trim] removes, at both ends, the white space
    and the line terminators of ECMAScript: U+0009 to U+000D, U+0020,
    U+00A0, U+1680, U+2000 to U+200A, U+2028, U+2029, U+202F, U+205F,
    U+3000 and U+FEFF. *)

(** The code points of one byte: U+0009 to U+000D and U+0020. *)
Definition isSpace (a : ascii) : bool :=
  let n := nat_of_ascii a in
  ((9 <=? n) && (n <=? 13) || (n =? 32))%nat.

(** The code point of two bytes: U+00A0, encoded C2 A0. *)
Definition isSpace2 (a b : ascii) : bool :=
  ((nat_of_ascii a =? 194) && (nat_of_ascii b =? 160))%nat.

(** The code points of three bytes: U+1680 (E1 9A 80), U+2000 to U+200A
    (E2 80 80 to E2 80 8A), U+2028 and U+2029 (E2 80 A8, E2 80 A9),
    U+202F (E2 80 AF), U+205F (E2 81 9F), U+3000 (E3 80 80) and U+FEFF
    (EF BB BF). *)
Definition isSpace3 (a b c : ascii) : bool :=
  let x := nat_of_ascii a in
  let y := nat_of_ascii b in
  let z := nat_of_ascii c in
  ((x =? 225) && (y =? 154) && (z =? 128)
   || (x =? 226) && (y =? 128)
      && ((128 <=? z) && (z <=? 138) || (z =? 168) || (z =? 169) || (z =? 175))
   || (x =? 226) && (y =? 129) && (z =? 159)
   || (x =? 227) && (y =? 128) && (z =? 128)
   || (x =? 239) && (y =? 187) && (z =? 191))%nat.

Fixpoint trimStart (s : string) : string :=
  match s with
  | EmptyString => EmptyString
  | String a rest =>
      if isSpace a then trimStart rest
      else
        match rest with
        | EmptyString => s
        | String b rest2 =>
            if isSpace2 a b then trimStart rest2
            else
              match rest2 with
              | EmptyString => s
              | String c rest3 => if isSpace3 a b c then trimStart rest3 else s
              end
        end
  end.

(** The text is cut where what remains is white space only. *)
Fixpoint trimEnd (s : string) : string :=
  match s with
  | EmptyString => EmptyString
  | String a rest =>
      if String.eqb (trimStart s) EmptyString then EmptyString
      else String a (trimEnd rest)
  end.

Definition trim (s : string) : string := trimEnd (trimStart s).

(** [baseName] of Sidebar.tsx: [path.split("/").pop() || path]. *)
Definition baseName (p : string) : string :=
  match lastIndexOf "/" p with
  | None => p
  | Some i => let last := sliceFrom (S i) p in if decide (last = "") then p else last
  end.

(** ** Remote service client (lib/api.ts)

    A request is indexed by the type of the body a successful answer
    carries.  [apiGet] and [apiPost] either return that body or throw an
    error, hence a call settles as [Fulfilled] or [Rejected]. *)

Inductive settled (A : Type) : Type :=
| Fulfilled (a : A)
| Rejected (message : string).

Arguments Fulfilled {A} a.
Arguments Rejected {A} message.

Inductive Request : Type → Type :=
| GetStrategies : Request (list Strategy)
| GetStrategy (p : string) : Request string
| GetStrategyParams (p : string) : Request ParamsResponse
| PostSave (p content : string) : Request unit
| PostRename (old_path new_path : string) : Request unit
| PostDelete (p : string) : Request unit
| PostBacktest (p : string) (overrides : option (list (string * number))) :
    Request BacktestResult
| PostOptimize (p : string) (payload : gmap string (number * number)) :
    Request OptimizeResponse
| PostPaperStart (p : string) (broker : Broker) : Request string
| GetPaperState (sid : string) : Request PaperStateResponse.

(** A call with its answer type hidden, as recorded in a trace. *)
Inductive Call : Type :=
| call {A : Type} (req : Request A).

Definition isRefreshCall (c : Call) : bool :=
  match c with
  | call (GetPaperState _) => true
  | call _ => false
  end.

Definition refreshTarget (c : Call) : option string :=
  match c with
  | call (GetPaperState sid) => Some sid
  | call _ => None
  end.

(** ** Asynchronous handlers

    The body of an [async] function: state updates, awaited calls, and
    the two ways it ends.  [Throw] at the top of a handler is a rejected
    promise. *)

Inductive Async : Type :=
| Return : Async
| Throw (message : string) : Async
| Update (f : World → World) (k : Async) : Async
| Await {A : Type} (req : Request A) (k : settled A → Async) : Async.

(** [const x = await call]: a rejected call throws at the [await]. *)
Definition await {A : Type} (req : Request A) (k : A → Async) : Async :=
  Await req (λ r, match r with
                  | Fulfilled a => k a
                  | Rejected e => Throw e
                  end).

(** [try { p } catch (err) { handler err }] *)
Fixpoint tryCatch (p : Async) (handler : string → Async) : Async :=
  match p with
  | Return => Return
  | Throw e => handler e
  | Update f k => Update f (tryCatch k handler)
  | Await req k => Await req (λ r, tryCatch (k r) handler)
  end.

(** [p; q]: [q] runs when [p] returns, an exception of [p] skips it. *)
Fixpoint andThen (p q : Async) : Async :=
  match p with
  | Return => q
  | Throw e => Throw e
  | Update f k => Update f (andThen k q)
  | Await req k => Await req (λ r, andThen (k r) q)
  end.

(** [try { p } finally { q }] *)
Fixpoint finally (p q : Async) : Async :=
  match p with
  | Return => q
  | Throw e => andThen q (Throw e)
  | Update f k => Update f (finally k q)
  | Await req k => Await req (λ r, finally (k r) q)
  end.

(** ** [JSON.stringify(res, null, 2)] for the answer of a tuning run *)

Definition quote : string := String (ascii_of_nat 34) EmptyString.
Definition newline : string := String (ascii_of_nat 10) EmptyString.

Definition jsonString (s : string) : string := quote +:+ s +:+ quote.

Definition jsonNumber (n : number) : string := pretty n.

Definition jsonObject (indent : string) (members : list (string * string)) : string :=
  match members with
  | [] => "{}"
  | _ =>
      "{" +:+ newline
      +:+ String.concat ("," +:+ newline)
            (map (λ kv, indent +:+ "  " +:+ jsonString kv.1 +:+ ": " +:+ kv.2) members)
      +:+ newline +:+ indent +:+ "}"
  end.

Definition JSON_stringify (res : OptimizeResponse) : string :=
  jsonObject ""
    [("best_value", jsonNumber (best_value res));
     ("best_params",
      jsonObject "  " (map (λ kv, (kv.1, jsonNumber kv.2)) (best_params res)))].

(** ** Per-strategy cache store *)

(** The updater used by [renameStrategy] on each bucket:
    [if (!(oldPath in prev)) return prev;
     const out = { ...prev, [newPath]: prev[oldPath] };
     delete out[oldPath]; return out;] *)
Definition renameKey {V : Type} (oldPath newPath : string)
    (prev : gmap string V) : gmap string V :=
  match prev !! oldPath with
  | None => prev
  | Some v => delete oldPath (<[newPath := v]> prev)
  end.

(** The updater used by [deleteStrategy] on each bucket. *)
Definition deleteKey {V : Type} (p : string) (prev : gmap string V) : gmap string V :=
  match prev !! p with
  | None => prev
  | Some _ => delete p prev
  end.

(** The [reduce] that turns a parameter specification into ranges:
    [acc[p.name] = { min: Number(p.suggested_min),
                     max: Number(p.suggested_max), type: p.type }].
    On the plain object [acc] the assignment to the name [__proto__]
    sets the prototype of [acc] and adds no key. *)
Definition rangeOf (p : StrategyParamSpec) : MlRange :=
  {| range_min := suggested_min p; range_max := suggested_max p;
     range_type := param_type p |}.

Definition paramRanges (specs : list StrategyParamSpec) : gmap string MlRange :=
  fold_left (λ acc p,
    if decide (param_name p = "__proto__") then acc
    else <[param_name p := rangeOf p]> acc) specs ∅.

(** A write into [codeByStrategy], recorded in the history variable. *)
Definition commitCode (sp text : string) (w : World) : World :=
  withCodeLog (λ l, l ++ [(sp, text)])
    (onHome (setCodeByStrategy (λ prev, <[sp := text]> prev)) w).

Definition noParamsMessage : string :=
  "No numeric params found in strategy `params`.".

(** ** Handlers of [HomePage]

    In every handler [c] is the state of the render whose closure the
    handler is. *)

Definition reloadStrategies (c : HomePage) : Async :=
  await GetStrategies $ λ files,
  Update (onHome (setStrategies files)) $
  match files with
  | [] => Update (onHome (setSelectedPath None)) Return
  | first :: _ =>
      match truthyPath (selectedPath c) with
      | Some sp =>
          if existsb (λ f, bool_decide (path f = sp)) files
          then Return
          else Update (onHome (setSelectedPath (Some (path first)))) Return
      | None => Update (onHome (setSelectedPath (Some (path first)))) Return
      end
  end.

Definition saveStrategy (c : HomePage) : Async :=
  match truthyPath (selectedPath c) with
  | None => Return
  | Some sp =>
      await (PostSave sp (code c)) $ λ _,
      Update (commitCode sp (code c)) $
      await (GetStrategyParams sp) $ λ meta,
      let specs := default [] (params meta) in
      Update (onHome (setMlParamSpecs specs)) $
      Update (onHome (setParamSpecsByStrategy (λ prev, <[sp := specs]> prev))) $
      let resetRanges := paramRanges specs in
      Update (onHome (setMlRanges resetRanges)) $
      Update (onHome (setMlByStrategy (λ prev,
        <[sp := {| resultText := ""; bestRun := None; ml_error := "";
                   ranges := resetRanges |}]> prev))) $
      Update (onHome (setBacktestByStrategy (λ prev, delete sp prev))) $
      reloadStrategies c
  end.

Definition renameStrategy (c : HomePage) (oldPath newPath : string) : Async :=
  await (PostRename oldPath newPath) $ λ _,
  Update (onHome (setCodeByStrategy (renameKey oldPath newPath))) $
  Update (onHome (setParamSpecsByStrategy (renameKey oldPath newPath))) $
  Update (onHome (setBacktestByStrategy (renameKey oldPath newPath))) $
  Update (onHome (setMlByStrategy (renameKey oldPath newPath))) $
  Update (onHome (setPaperByStrategy (renameKey oldPath newPath))) $
  reloadStrategies c.

Definition deleteStrategy (c : HomePage) (p : string) : Async :=
  await (PostDelete p) $ λ _,
  Update (onHome (setCodeByStrategy (deleteKey p))) $
  Update (onHome (setParamSpecsByStrategy (deleteKey p))) $
  Update (onHome (setBacktestByStrategy (deleteKey p))) $
  Update (onHome (setMlByStrategy (deleteKey p))) $
  Update (onHome (setPaperByStrategy (deleteKey p))) $
  reloadStrategies c.

Definition runBacktest (c : HomePage) : Async :=
  match truthyPath (selectedPath c) with
  | None => Return
  | Some sp =>
      await (PostBacktest sp None) $ λ backtest,
      Update (onHome (setResult (Some backtest))) $
      Update (onHome (setBacktestByStrategy (λ prev, <[sp := backtest]> prev))) Return
  end.

(** The payload of a tuning request: [{ min, max }] per range. *)
Definition rangesPayloadOf (c : HomePage) : gmap string (number * number) :=
  (λ r, (range_min r, range_max r)) <$> mlRanges c.

(** The entry that both failure paths of [runOptimization] write. *)
Definition mlFailureEntry (c : HomePage) (msg : string) : MlSessionCache :=
  {| resultText := optuna c; bestRun := mlBestResult c; ml_error := msg;
     ranges := mlRanges c |}.

Definition runOptimization (c : HomePage) : Async :=
  match truthyPath (selectedPath c) with
  | None => Return
  | Some sp =>
      let rangesPayload := rangesPayloadOf c in
      if decide (size rangesPayload = 0%nat)
      then
        Update (onHome (setMlError noParamsMessage)) $
        Update (onHome (setMlByStrategy (λ prev,
          <[sp := mlFailureEntry c noParamsMessage]> prev))) Return
      else
        Update (onHome (setMlLoading true)) $
        Update (onHome (setMlError "")) $
        Update (onHome (setMlBestResult None)) $
        finally
          (tryCatch
             (await (PostOptimize sp rangesPayload) $ λ res,
              let text := JSON_stringify res in
              Update (onHome (setOptuna text)) $
              await (PostBacktest sp (Some (best_params res))) $ λ best,
              Update (onHome (setMlBestResult (Some best))) $
              Update (onHome (setMlByStrategy (λ prev,
                <[sp := {| resultText := text; bestRun := Some best; ml_error := "";
                           ranges := mlRanges c |}]> prev))) Return)
             (λ err,
              let msg := errText err in
              Update (onHome (setMlError msg)) $
              Update (onHome (setMlByStrategy (λ prev,
                <[sp := mlFailureEntry c msg]> prev))) Return))
          (Update (onHome (setMlLoading false)) Return)
  end.

Definition startPaper (c : HomePage) (broker : Broker) : Async :=
  match truthyPath (selectedPath c) with
  | None => Return
  | Some sp =>
      Update (onHome (setPaperError "")) $
      Update (onHome (setPaperState None)) $
      await (PostPaperStart sp broker) $ λ sid,
      Update (onHome (setPaperSession sid)) $
      Update (onHome (setPaperByStrategy (λ prev,
        <[sp := {| sessionId := sid; paper_error := ""; state := None |}]> prev))) Return
  end.

Definition refreshPaperState (c : HomePage) : Async :=
  match truthyPath (selectedPath c) with
  | None => Return
  | Some sp =>
      if decide (paperSession c = "") then Return else
      Update (onHome (setPaperLoading true)) $
      finally
        (tryCatch
           (await (GetPaperState (paperSession c)) $ λ st,
            Update (onHome (setPaperState (Some st))) $
            Update (onHome (setPaperError "")) $
            Update (onHome (setPaperByStrategy (λ prev,
              <[sp := {| sessionId := paperSession c; paper_error := "";
                         state := Some st |}]> prev))) Return)
           (λ err,
            let msg := errText err in
            Update (onHome (setPaperError msg)) $
            Update (onHome (setPaperByStrategy (λ prev,
              <[sp := {| sessionId := paperSession c; paper_error := msg;
                         state := paperState c |}]> prev))) Return))
        (Update (onHome (setPaperLoading false)) Return)
  end.

(** [refreshPaperState().catch((err) => setPaperError(...))], as the
    polling effect and the refresh button call it. *)
Definition refreshGuarded (c : HomePage) : Async :=
  tryCatch (refreshPaperState c)
    (λ err, Update (onHome (setPaperError (errText err))) Return).

(** [startPaper("alpaca").catch((err) => setPaperError(...))], the
    handler of the second start button. *)
Definition startAlpacaGuarded (c : HomePage) : Async :=
  tryCatch (startPaper c Alpaca)
    (λ err, Update (onHome (setPaperError (errText err))) Return).

(** The two labels of the task bar:
    [selectedPath || "Select strategy"] and
    [selectedPath ? selectedPath.split("/").pop() || selectedPath
                  : "no_strategy.py"]. *)
Definition activeName (c : HomePage) : string :=
  default "Select strategy" (truthyPath (selectedPath c)).

Definition activeFileName (c : HomePage) : string :=
  match truthyPath (selectedPath c) with
  | Some p => baseName p
  | None => "no_strategy.py"
  end.

(** The [onChange] of the editor. *)
Definition onChange (c : HomePage) (next : string) : Async :=
  Update (onHome (setCode next)) $
  match truthyPath (selectedPath c) with
  | None => Return
  | Some sp => Update (commitCode sp next) Return
  end.

(** ** Handlers of [Sidebar]

    The closure of a sidebar handler holds the sidebar's own state and
    the props of the same render, that is the whole world [c]. *)

Definition toggleFavorite (c : World) (p : string) : Async :=
  let next :=
    if bool_decide (p ∈ favorites c)
    then filter (λ q, q ≠ p) (favorites c)
    else p :: favorites c in
  Update (withFavorites next) $
  Update (withLocalStorage (Some next)) Return.

(** The path [commitRename] asks for when the row of [oldPath] was
    edited to [clean]. *)
Definition renameTarget (oldPath clean : string) : string :=
  let newName := if endsWith clean ".py" then clean else clean +:+ ".py" in
  let dir :=
    match lastIndexOf "/" oldPath with
    | Some i => sliceTo (S i) oldPath
    | None => ""
    end in
  dir +:+ newName.

(** What [commitRename] does from [await onRename(oldPath, newPath)] on,
    inside its [try] block. *)
Definition renameFlow (c : World) (oldPath newPath : string) : Async :=
  tryCatch
    (andThen (renameStrategy (home c) oldPath newPath) $
     andThen
       (if decide (selectedPath (home c) = Some oldPath)
        then Update (onHome (setSelectedPath (Some newPath))) Return
        else Return) $
     if bool_decide (oldPath ∈ favorites c)
     then
       let next := (λ p, if decide (p = oldPath) then newPath else p) <$> favorites c in
       Update (withFavorites next) $
       Update (withLocalStorage (Some next)) Return
     else Return)
    (λ err, Update (withAlerts (λ l, l ++ [errText err])) Return).

Definition commitRename (c : World) : Async :=
  match truthyPath (editingPath c) with
  | None => Return
  | Some oldPath =>
      let oldName := baseName oldPath in
      let clean := trim (editingName c) in
      Update (withEditingPath None) $
      if bool_decide (clean = "" ∨ clean = oldName) then Return
      else renameFlow c oldPath (renameTarget oldPath clean)
  end.

(** The click handler of the delete button, after the user typed
    [typed] into the confirmation prompt ([None]: prompt cancelled). *)
Definition confirmDelete (c : World) (p : string) (typed : option string) : Async :=
  match typed with
  | None => Return
  | Some t =>
      if decide (trim t = baseName p)
      then tryCatch (deleteStrategy (home c) p)
             (λ err, Update (withAlerts (λ l, l ++ [errText err])) Return)
      else Update (withAlerts (λ l, l ++ ["Name mismatch. File was not deleted."])) Return
  end.

(** The reconciliation effect of [Sidebar], with dependencies
    [strategies] and [favorites]. *)
Definition reconcile (w : World) : World :=
  match strategies (home w) with
  | [] => w
  | _ =>
      let valid := path <$> strategies (home w) in
      let next := filter (λ p, p ∈ valid) (favorites w) in
      if decide (length next ≠ length (favorites w))
      then withLocalStorage (Some next) (withFavorites next w)
      else w
  end.

(** The two lists the sidebar renders: the starred strategies, then
    the others, each in registry order. *)
Definition favoriteItems (w : World) : list Strategy :=
  filter (λ st, path st ∈ favorites w) (strategies (home w)).

Definition otherItems (w : World) : list Strategy :=
  filter (λ st, path st ∉ favorites w) (strategies (home w)).

(** ** Running a handler

    [exec] runs a handler to its end when nothing else happens in
    between: every awaited call is answered at once by the remote
    service [o].  It yields the final world, the calls made, and the
    error of the rejection when the handler's promise rejects. *)

Definition Remote : Type := ∀ A : Type, Request A → settled A.

Record Run : Type := mkRun {
  final : World;
  calls : list Call;
  rejection : option string
}.

(** [after c r]: the run [r] preceded by the call [c]. *)
Definition after (c : Call) (r : Run) : Run :=
  {| final := final r; calls := c :: calls r; rejection := rejection r |}.

Fixpoint exec (o : Remote) (p : Async) (w : World) : Run :=
  match p with
  | Return => {| final := w; calls := []; rejection := None |}
  | Throw e => {| final := w; calls := []; rejection := Some e |}
  | Update f k => exec o k (f w)
  | Await req k => after (call req) (exec o (k (o _ req)) w)
  end.

(** ** The event loop

    Between two events the page is a world, the calls that are still in
    flight (each with the rest of the handler that awaits it), the
    callback of the interval that the browser holds for the page, if the
    page has registered one, and two traces: the calls issued so far and
    the rejections nobody handled. *)

Record Task : Type := mkTask {
  task_ty : Type;
  task_req : Request task_ty;
  task_k : settled task_ty → Async
}.

Record System : Type := mkSystem {
  world : World;
  tasks : list Task;
  timer : option Async;
  issued : list Call;
  unhandled : list string
}.

Definition onWorld (f : World → World) (s : System) : System :=
  {| world := f (world s); tasks := tasks s; timer := timer s;
     issued := issued s; unhandled := unhandled s |}.

Definition withTasks (l : list Task) (s : System) : System :=
  {| world := world s; tasks := l; timer := timer s;
     issued := issued s; unhandled := unhandled s |}.

(** [run] executes a handler up to its next [await]. *)
Fixpoint run (p : Async) (s : System) : System :=
  match p with
  | Return => s
  | Throw e =>
      {| world := world s; tasks := tasks s; timer := timer s;
         issued := issued s; unhandled := unhandled s ++ [e] |}
  | Update f k => run k (onWorld f s)
  | Await req k =>
      {| world := world s; tasks := tasks s ++ [mkTask _ req k]; timer := timer s;
         issued := issued s ++ [call req]; unhandled := unhandled s |}
  end.

(** *** The hydration effect (dependency: [selectedPath]) *)

(** [if (!active) return; ...] inside a promise callback of the effect
    run number [g]. *)
Definition whenActive (g : nat) (f : World → World) (w : World) : World :=
  if decide (activeEffect w = g) then f w else w.

(** [.catch(console.error)] *)
Definition logError (err : string) : Async :=
  Update (withConsoleErrors (λ l, l ++ [err])) Return.

(** The [then] callback of the code fetch:
    [if (!active) return; setCode(res.content);
     setCodeByStrategy((prev) => ({ ...prev, [selectedPath]: res.content }))]. *)
Definition codeArrived (g : nat) (sp content : string) : World → World :=
  whenActive g (λ w, commitCode sp content (onHome (setCode content) w)).

Definition fetchCode (g : nat) (sp : string) : Async :=
  tryCatch
    (await (GetStrategy sp) $ λ content, Update (codeArrived g sp content) Return)
    logError.

(** The two callbacks of the parameter fetch; [noRanges] is
    [!mlCached?.ranges] as the effect run saw it. *)
Definition paramsArrived (g : nat) (sp : string) (noRanges : bool)
    (res : ParamsResponse) : World → World :=
  whenActive g (λ w,
    let specs := default [] (params res) in
    let w' := onHome (setParamSpecsByStrategy (λ prev, <[sp := specs]> prev))
                (onHome (setMlParamSpecs specs) w) in
    if noRanges then onHome (setMlRanges (paramRanges specs)) w' else w').

Definition paramsFailed (g : nat) (noRanges : bool) (err : string) : World → World :=
  whenActive g (λ w,
    let w' := onHome (setMlParamSpecs []) (withConsoleErrors (λ l, l ++ [err]) w) in
    if noRanges then onHome (setMlRanges ∅) w' else w').

Definition fetchParams (g : nat) (sp : string) (noRanges : bool) : Async :=
  Await (GetStrategyParams sp) (λ r,
    match r with
    | Fulfilled res => Update (paramsArrived g sp noRanges res) Return
    | Rejected err => Update (paramsFailed g noRanges err) Return
    end).

(** The synchronous part: restore the cached view state of [sp]. *)
Definition restoreCached (c : HomePage) (sp : string) (h : HomePage) : HomePage :=
  let mlCached := mlByStrategy c !! sp in
  let paperCached := paperByStrategy c !! sp in
  setPaperState (paperCached ≫= state) $
  setPaperError (default "" (paper_error <$> paperCached)) $
  setPaperSession (default "" (sessionId <$> paperCached)) $
  setMlRanges (default ∅ (ranges <$> mlCached)) $
  setMlError (default "" (ml_error <$> mlCached)) $
  setOptuna (default "" (resultText <$> mlCached)) $
  setMlBestResult (mlCached ≫= bestRun) $
  setResult (backtestByStrategy c !! sp) h.

Definition hydrationEffect (c : HomePage) (s : System) : System :=
  (* cleanup of the previous run, then this run's own [active] flag *)
  let g := S (activeEffect (world s)) in
  let s0 := onWorld (withActiveEffect g) s in
  match truthyPath (selectedPath c) with
  | None => s0
  | Some sp =>
      let s1 := onWorld (onHome (restoreCached c sp)) s0 in
      let s2 :=
        match codeByStrategy c !! sp with
        | Some cachedCode => onWorld (onHome (setCode cachedCode)) s1
        | None => run (fetchCode g sp) s1
        end in
      let noRanges :=
        match mlByStrategy c !! sp with Some _ => false | None => true end in
      match paramSpecsByStrategy c !! sp with
      | Some cachedParams =>
          let s3 := onWorld (onHome (setMlParamSpecs cachedParams)) s2 in
          if noRanges
          then onWorld (onHome (setMlRanges (paramRanges cachedParams))) s3
          else s3
      | None => run (fetchParams g sp noRanges) s2
      end
  end.

(** *** The polling effect (dependencies: [view], [paperSession])

    Inside [HomePage] the name [setInterval] is the setter of the state
    cell [interval] ([const [interval, setInterval] = useState("1m")]),
    which hides the timer function of the browser.  The call
    [setInterval(callback, 10000)] of the effect therefore hands
    [callback] to React as a state updater: React runs it once, which
    starts a second refresh, and no interval is registered.  The value
    [timer] is [undefined], and the cleanup [clearInterval(undefined)]
    does nothing.  The cell [interval], which the updater leaves
    [undefined], is one of the market form fields that are left out. *)

Definition pollingEffect (c : HomePage) (s : System) : System :=
  if decide (view c = Paper)
  then
    if decide (paperSession c = "") then s
    else
      (* the refresh of the effect, then the one of the state updater *)
      run (refreshGuarded c) (run (refreshGuarded c) s)
  else s.

(** *** Rendering after an event

    [pre] is the state of the previous render.  An effect runs when one
    of its dependencies differs from the previous render; the sidebar's
    reconciliation is idempotent and changes nothing unless [strategies]
    or [favorites] changed, so it is applied at every render.  The
    hydration effect may change [paperSession], which takes one more
    render to reach the polling effect: that effect therefore sees the
    hydrated state. *)
Definition commit (pre : HomePage) (s : System) : System :=
  let s1 :=
    if decide (selectedPath (home (world s)) = selectedPath pre) then s
    else hydrationEffect (home (world s)) s in
  let s2 := onWorld reconcile s1 in
  if decide (view (home (world s2)) = view pre
             ∧ paperSession (home (world s2)) = paperSession pre)
  then s2
  else pollingEffect (home (world s2)) s2.

(** *** Events *)

Inductive Event : Type :=
| Select (p : string)
| SwitchView (v : WorkspaceView)
| Edit (next : string)
| ClickSave
| ClickRunBacktest
| ClickRunOptimization
| ClickStartLocal
| ClickStartAlpaca
| ClickRefresh
| ToggleFavorite (p : string)
| BeginRename (p : string)
| TypeName (text : string)
| CommitRename
| ClickDelete (p : string) (typed : option string)
| Tick
| Settle (i : nat) (o : Remote).

Definition alertError (err : string) : Async :=
  Update (withAlerts (λ l, l ++ [errText err])) Return.

Definition handle (e : Event) (s : System) : System :=
  let c := home (world s) in
  match e with
  | Select p => run (Update (onHome (setSelectedPath (Some p))) Return) s
  | SwitchView v => run (Update (onHome (setView v)) Return) s
  | Edit next => run (onChange c next) s
  | ClickSave => run (saveStrategy c) s
  | ClickRunBacktest => run (runBacktest c) s
  | ClickRunOptimization => run (runOptimization c) s
  | ClickStartLocal => run (startPaper c Local) s
  | ClickStartAlpaca => run (startAlpacaGuarded c) s
  | ClickRefresh => run (refreshGuarded c) s
  | ToggleFavorite p => run (toggleFavorite (world s) p) s
  | BeginRename p =>
      run (Update (withEditingPath (Some p)) $
           Update (withEditingName (baseName p)) Return) s
  | TypeName text => run (Update (withEditingName text) Return) s
  | CommitRename => run (tryCatch (commitRename (world s)) logError) s
  | ClickDelete p typed => run (confirmDelete (world s) p typed) s
  | Tick =>
      match timer s with
      | Some callback => run callback s
      | None => s
      end
  | Settle i o =>
      match tasks s !! i with
      | Some t => run (task_k t (o _ (task_req t))) (withTasks (delete i (tasks s)) s)
      | None => s
      end
  end.

Definition step (s : System) (e : Event) : System :=
  commit (home (world s)) (handle e s).

Definition steps (s : System) (es : list Event) : System := fold_left step es s.

(** *** The page after mounting *)

Definition initialHome : HomePage :=
  {| view := Coding; strategies := []; selectedPath := None; code := "";
     codeByStrategy := ∅; result := None; backtestByStrategy := ∅;
     paramSpecsByStrategy := ∅; mlByStrategy := ∅; mlBestResult := None;
     optuna := ""; mlLoading := false; mlError := ""; mlParamSpecs := [];
     mlRanges := ∅; paperSession := ""; paperError := ""; paperState := None;
     paperByStrategy := ∅; paperLoading := false |}.

(** [stored] is the array of strings found under [FAVORITES_KEY], if
    any; the sidebar's first effect loads it. *)
Definition initialWorld (stored : option (list string)) : World :=
  {| home := initialHome; favorites := default [] stored; editingPath := None;
     editingName := ""; localStorage := stored; alerts := []; consoleErrors := [];
     activeEffect := 0; codeLog := [] |}.

(** The first effect of [HomePage]:
    [reloadStrategies().catch(console.error)]. *)
Definition mountEffect : Async := tryCatch (reloadStrategies initialHome) logError.

Definition mounted (stored : option (list string)) : System :=
  run mountEffect
    {| world := initialWorld stored; tasks := []; timer := None;
       issued := []; unhandled := [] |}.

(** ** Vocabulary of the specification *)



(** The ids listed by a registry. *)
Definition registryIds (files : list Strategy) : list string := path <$> files.

(** The last value written for [id] in the history of [codeByStrategy]. *)
Definition lastCommitted (id : string) (log : list (string * string)) : option string :=
  snd <$> last (filter (λ kv, kv.1 = id) log).

(** The first call a handler waits for, with the rest of the handler. *)
Fixpoint pendingOf (p : Async) : option Task :=
  match p with
  | Update _ k => pendingOf k
  | Await req k => Some (mkTask _ req k)
  | Return | Throw _ => None
  end.

(** The world once the synchronous start of a handler has run. *)
Fixpoint advance (p : Async) (w : World) : World :=
  match p with
  | Update f k => advance k (f w)
  | Await _ _ | Return | Throw _ => w
  end.







(** The session id cached for a strategy, empty when there is none. *)
Definition cachedSession (h : HomePage) (id : string) : string :=
  default "" (sessionId <$> paperByStrategy h !! id).

(** ** Sample data *)

Definition sampleBacktest : BacktestResult :=
  {| run_id := "run-1"; final_value := 10500; pnl := 500; win_rate := 60;
     equity_curve := [("t0", 10000%Z); ("t1", 10500%Z)] |}.

Definition samplePaperState : PaperStateResponse :=
  {| session := {| session_id := "s1"; strategy_path := "a.py"; cash := 10000;
                   position := 0; status := "running" |};
     snapshot := sampleBacktest |}.

Definition fastSpec : StrategyParamSpec :=
  {| param_name := "fast"; param_type := TInt; param_default := 10;
     suggested_min := 5; suggested_max := 40 |}.

Definition fastRange : MlRange :=
  {| range_min := 5; range_max := 40; range_type := TInt |}.

Definition sampleTuning : MlSessionCache :=
  {| resultText := "{}"; bestRun := Some sampleBacktest; ml_error := "";
     ranges := {[ "fast" := fastRange ]} |}.

Definition samplePaper : PaperSessionCache :=
  {| sessionId := "s1"; paper_error := ""; state := Some samplePaperState |}.

Definition strategyFile (p : string) : Strategy :=
  {| name := p; path := p; updated_at := "2024-01-01" |}.

(** A remote service that accepts every request; it lists [files] and
    declares the parameters [specs] for every strategy. *)
Definition remoteWith (files : list Strategy) (specs : list StrategyParamSpec) : Remote :=
  λ A req,
    match req in Request T return settled T with
    | GetStrategies => Fulfilled files
    | GetStrategy p => Fulfilled ("# " +:+ p)
    | GetStrategyParams _ => Fulfilled {| params := Some specs |}
    | PostSave _ _ => Fulfilled tt
    | PostRename _ _ => Fulfilled tt
    | PostDelete _ => Fulfilled tt
    | PostBacktest _ _ => Fulfilled sampleBacktest
    | PostOptimize _ _ =>
        Fulfilled {| best_value := 500; best_params := [("fast", 12%Z)] |}
    | PostPaperStart _ _ => Fulfilled "s1"
    | GetPaperState _ => Fulfilled samplePaperState
    end.

(** A remote service that fails every request. *)
Definition remoteDown (message : string) : Remote := λ A _, Rejected message.

(** A workspace with two strategies; [a.py] is active, starred, and has
    an entry in every bucket. *)
Definition workspaceHome : HomePage :=
  {| view := Coding; strategies := [strategyFile "a.py"; strategyFile "b.py"];
     selectedPath := Some "a.py"; code := "X=1";
     codeByStrategy := {[ "a.py" := "X=1" ]}; result := Some sampleBacktest;
     backtestByStrategy := {[ "a.py" := sampleBacktest ]};
     paramSpecsByStrategy := {[ "a.py" := [fastSpec] ]};
     mlByStrategy := {[ "a.py" := sampleTuning ]};
     mlBestResult := Some sampleBacktest; optuna := "{}"; mlLoading := false;
     mlError := ""; mlParamSpecs := [fastSpec]; mlRanges := {[ "fast" := fastRange ]};
     paperSession := "s1"; paperError := ""; paperState := Some samplePaperState;
     paperByStrategy := {[ "a.py" := samplePaper ]}; paperLoading := false |}.

Definition workspace : World :=
  {| home := workspaceHome; favorites := ["a.py"]; editingPath := None;
     editingName := ""; localStorage := Some ["a.py"]; alerts := [];
     consoleErrors := []; activeEffect := 1; codeLog := [("a.py", "X=1")] |}.

(** The same workspace while the row of [a.py] is being renamed and the
    user has typed [a]. *)
Definition renamingSelf : World :=
  withEditingName "a" (withEditingPath (Some "a.py") workspace).

(** A session on the mounted page: the registry arrives and [a.py]
    becomes active, its parameters arrive, a tuning run completes, then
    the code is saved and the strategy now declares no parameter. *)
Definition tuneThenSave : list Event :=
  let declared := remoteWith [strategyFile "a.py"] [fastSpec] in
  let bare := remoteWith [strategyFile "a.py"] [] in
  [Settle 0 declared; Settle 0 declared; Settle 0 declared;
   ClickRunOptimization; Settle 0 declared; Settle 0 declared;
   ClickSave; Settle 0 bare; Settle 0 bare; Settle 0 bare].

(** A remote service with two strategies. *)
Definition serviceUp : Remote :=
  remoteWith [strategyFile "a.py"; strategyFile "b.py"] [fastSpec].


(** The same service while its parameter listing fails. *)
Definition paramsDown (message : string) : Remote :=
  λ A req,
    match req in Request T return settled T with
    | GetStrategyParams _ => Rejected message
    | other => serviceUp _ other
    end.

(** The registry, the code and the parameters of [a.py] arrive. *)
Definition readyEvents : list Event :=
  [Settle 0 serviceUp; Settle 0 serviceUp; Settle 0 serviceUp].

Definition pageReady : System := steps (mounted None) readyEvents.




(** The code of [a.py] arrives, the user edits it, switches to [b.py],
    and the parameters of [a.py] arrive late. *)
Definition editThenSwitch : list Event :=
  [Settle 0 serviceUp; Settle 0 serviceUp; Edit "X=1"; Select "b.py"; Settle 0 serviceUp].



(** The same workspace with a cached backtest for [b.py] as well. *)
Definition twoCached : World :=
  onHome (setBacktestByStrategy (λ prev, <["b.py" := sampleBacktest]> prev)) workspace.

(** ** Vocabulary of the further properties *)

(** The text [s] holds no slash. *)
Definition noSlash (s : string) : Prop := ∀ pre post, s ≠ pre +:+ "/" +:+ post.

(** [updatesWithin R p]: every state update the handler [p] can make
    takes a world to a world related to it by [R], whatever the remote
    service answers. *)
Inductive updatesWithin (R : World → World → Prop) : Async → Prop :=
| within_return : updatesWithin R Return
| within_throw (e : string) : updatesWithin R (Throw e)
| within_update (f : World → World) (k : Async) :
    (∀ w, R w (f w)) → updatesWithin R k → updatesWithin R (Update f k)
| within_await {A : Type} (req : Request A) (k : settled A → Async) :
    (∀ r, updatesWithin R (k r)) → updatesWithin R (Await req k).

(** The part of the page that belongs to the editor and the sidebar:
    the view, the registry, the selection, the editor's text, the cached
    code and parameter specifications, and the sidebar's own state. *)
Record sameWorkspace (w w' : World) : Prop := mkSameWorkspace {
  kept_view : view (home w') = view (home w);
  kept_registry : strategies (home w') = strategies (home w);
  kept_selection : selectedPath (home w') = selectedPath (home w);
  kept_text : code (home w') = code (home w);
  kept_code : codeByStrategy (home w') = codeByStrategy (home w);
  kept_specs : paramSpecsByStrategy (home w') = paramSpecsByStrategy (home w);
  kept_stars : favorites w' = favorites w;
  kept_stored : localStorage w' = localStorage w;
  kept_editing : editingPath w' = editingPath w ∧ editingName w' = editingName w;
  kept_alerts : alerts w' = alerts w;
  kept_history : codeLog w' = codeLog w
}.

(** The row being renamed is only changed by the sidebar's own
    [setEditingPath] and [setEditingName]. *)
Definition sameEditing (w w' : World) : Prop :=
  editingPath w' = editingPath w ∧ editingName w' = editingName w.

(** The five per-strategy buckets. *)
Record sameBuckets (w w' : World) : Prop := mkSameBuckets {
  bucket_code : codeByStrategy (home w') = codeByStrategy (home w);
  bucket_specs : paramSpecsByStrategy (home w') = paramSpecsByStrategy (home w);
  bucket_backtest : backtestByStrategy (home w') = backtestByStrategy (home w);
  bucket_ml : mlByStrategy (home w') = mlByStrategy (home w);
  bucket_paper : paperByStrategy (home w') = paperByStrategy (home w)
}.

(** What [commitRename] still has to do once the service has accepted
    the rename and the five buckets have been rewritten: the registry
    reload, then the selection and the star. *)
Definition renameTail (c : World) (oldPath newPath : string) : Async :=
  tryCatch
    (andThen (reloadStrategies (home c)) $
     andThen
       (if decide (selectedPath (home c) = Some oldPath)
        then Update (onHome (setSelectedPath (Some newPath))) Return
        else Return) $
     if bool_decide (oldPath ∈ favorites c)
     then
       let next := (λ p, if decide (p = oldPath) then newPath else p) <$> favorites c in
       Update (withFavorites next) $
       Update (withLocalStorage (Some next)) Return
     else Return)
    (λ err, Update (withAlerts (λ l, l ++ [errText err])) Return).

(** The world in which that rest of the flow starts. *)
Definition bucketsRenamed (oldPath newPath : string) (w : World) : World :=
  onHome (setPaperByStrategy (renameKey oldPath newPath))
    (onHome (setMlByStrategy (renameKey oldPath newPath))
       (onHome (setBacktestByStrategy (renameKey oldPath newPath))
          (onHome (setParamSpecsByStrategy (renameKey oldPath newPath))
             (onHome (setCodeByStrategy (renameKey oldPath newPath)) w)))).


(** * Properties *)

(** ** Running handlers: one step at a time *)

Lemma exec_await_ok (o : Remote) {A : Type} (req : Request A) (k : A → Async)
    (w : World) (a : A) :
  o _ req = Fulfilled a → exec o (await req k) w = after (call req) (exec o (k a) w).
Proof. intros Ho. unfold await. cbn [exec]. by rewrite Ho. Qed.

Lemma exec_await_failed (o : Remote) {A : Type} (req : Request A) (k : A → Async)
    (w : World) (e : string) :
  o _ req = Rejected e →
  exec o (await req k) w = {| final := w; calls := [call req]; rejection := Some e |}.
Proof. intros Ho. unfold await. cbn [exec]. by rewrite Ho. Qed.

Lemma exec_update (o : Remote) (f : World → World) (k : Async) (w : World) :
  exec o (Update f k) w = exec o k (f w).
Proof. reflexivity. Qed.

(** ** Cache store: the two bucket updaters *)

Section Buckets.
Context {V : Type}.
Implicit Types (m : gmap string V) (oldId newId id : string).




Lemma renameKey_other m oldId newId id :
  id ≠ oldId → id ≠ newId → renameKey oldId newId m !! id = m !! id.
Proof.
  intros H1 H2. unfold renameKey. destruct (m !! oldId); [|done].
  rewrite lookup_delete_ne by done. by rewrite lookup_insert_ne.
Qed.


Lemma renameKey_same m id : renameKey id id m = delete id m.
Proof.
  unfold renameKey. destruct (m !! id) eqn:E.
  - by rewrite delete_insert_eq.
  - symmetry. by apply delete_id.
Qed.

Lemma deleteKey_delete m id : deleteKey id m = delete id m.
Proof.
  unfold deleteKey. destruct (m !! id) eqn:E; [done|].
  symmetry. by apply delete_id.
Qed.


Lemma deleteKey_other m id id' : id' ≠ id → deleteKey id m !! id' = m !! id'.
Proof. intros H. rewrite deleteKey_delete. by apply lookup_delete_ne. Qed.
End Buckets.

(** ** Favourites index *)

Lemma filter_same_length {A : Type} (P : A → Prop) `{!∀ x, Decision (P x)} (l : list A) :
  length (filter P l) = length l → filter P l = l.
Proof.
  induction l as [|x l IH]; [done|].
  rewrite filter_cons. destruct (decide (P x)) as [Hx|Hx]; simpl.
  - intros [= E]. f_equal. by apply IH.
  - intros E. pose proof (length_filter P l). lia.
Qed.

Lemma reconcile_home (w : World) : home (reconcile w) = home w.
Proof.
  unfold reconcile. destruct (strategies (home w)); [done|].
  by case_decide.
Qed.

Lemma reconcile_favorites (w : World) :
  strategies (home w) ≠ [] →
  favorites (reconcile w)
  = filter (λ p, p ∈ registryIds (strategies (home w))) (favorites w).
Proof.
  intros Hne. unfold reconcile, registryIds.
  destruct (strategies (home w)) as [|f fs] eqn:E; [done|].
  case_decide as Hlen; [done|].
  symmetry. by apply filter_same_length.
Qed.

Lemma reconcile_empty_registry (w : World) :
  strategies (home w) = [] → reconcile w = w.
Proof. intros E. unfold reconcile. by rewrite E. Qed.

(** C7, as the code has it: a reconciliation pass over a registry that
    lists at least one strategy leaves in the favourites exactly the old
    favourites that the registry lists, so none that is absent from it.
    (Over an empty registry the pass returns at once.) *)
Theorem reconcile_prunes_when_registry_nonempty (w : World) :
  strategies (home w) ≠ [] →
  favorites (reconcile w)
  = filter (λ p, p ∈ registryIds (strategies (home w))) (favorites w)
  ∧ ∀ p, p ∈ favorites (reconcile w) →
         p ∈ registryIds (strategies (home (reconcile w))).
Proof.
  intros Hne. split; [by apply reconcile_favorites|].
  intros p. rewrite reconcile_home, reconcile_favorites by done.
  rewrite list_elem_of_filter. tauto.
Qed.

Lemma reconcile_prunes_witness :
  favorites (reconcile (withFavorites ["ghost.py"; "a.py"] workspace)) = ["a.py"].
Proof.
  destruct (reconcile_prunes_when_registry_nonempty
              (withFavorites ["ghost.py"; "a.py"] workspace)) as [E _].
  - discriminate.
  - rewrite E. vm_compute. reflexivity.
Defined.

(** C7 as stated fails: before the registry has any member the pass
    returns without pruning, so a stored favourite survives it although
    the registry does not list it. *)
Lemma reconcile_empty_registry_keeps_stale :
  ¬ (∀ w p, p ∈ favorites (reconcile w) →
            p ∈ registryIds (strategies (home (reconcile w)))).
Proof.
  intros H.
  specialize (H (initialWorld (Some ["ghost.py"])) "ghost.py").
  simpl in H. apply elem_of_nil in H; [done|]. apply list_elem_of_here.
Qed.

(** ** Running handlers: composition *)

Definition joinRuns (r : Run) (next : World → Run) : Run :=
  let r2 := next (final r) in
  {| final := final r2; calls := calls r ++ calls r2; rejection := rejection r2 |}.

Lemma exec_andThen (o : Remote) (p q : Async) (w : World) :
  exec o (andThen p q) w
  = match rejection (exec o p w) with
    | Some _ => exec o p w
    | None => joinRuns (exec o p w) (exec o q)
    end.
Proof.
  revert w. induction p as [|e|f k IH|A req k IH]; intros w; simpl.
  - unfold joinRuns; simpl. by destruct (exec o q w).
  - done.
  - apply IH.
  - rewrite IH. unfold after.
    destruct (rejection (exec o (k (o A req)) w)) eqn:E; unfold joinRuns; simpl;
      by rewrite ?E.
Qed.

Lemma exec_tryCatch (o : Remote) (p : Async) (h : string → Async) (w : World) :
  exec o (tryCatch p h) w
  = match rejection (exec o p w) with
    | None => exec o p w
    | Some e => joinRuns (exec o p w) (exec o (h e))
    end.
Proof.
  revert w. induction p as [|e|f k IH|A req k IH]; intros w; simpl.
  - done.
  - unfold joinRuns; simpl. by destruct (exec o (h e) w).
  - apply IH.
  - rewrite IH. unfold after.
    destruct (rejection (exec o (k (o A req)) w)) eqn:E; unfold joinRuns; simpl;
      by rewrite ?E.
Qed.

Lemma exec_finally (o : Remote) (p q : Async) (w : World) :
  exec o (finally p q) w
  = match rejection (exec o p w) with
    | None => joinRuns (exec o p w) (exec o q)
    | Some e => joinRuns (exec o p w) (exec o (andThen q (Throw e)))
    end.
Proof.
  revert w. induction p as [|e|f k IH|A req k IH]; intros w; simpl.
  - unfold joinRuns; simpl. by destruct (exec o q w).
  - unfold joinRuns; simpl. by destruct (exec o (andThen q (Throw e)) w).
  - apply IH.
  - rewrite IH. unfold after.
    destruct (rejection (exec o (k (o A req)) w)) eqn:E; unfold joinRuns; simpl;
      by rewrite ?E.
Qed.

(** What a registry reload leaves alone. *)
Record sameCaches (w w' : World) : Prop := {
  same_code : codeByStrategy (home w') = codeByStrategy (home w);
  same_specs : paramSpecsByStrategy (home w') = paramSpecsByStrategy (home w);
  same_backtest : backtestByStrategy (home w') = backtestByStrategy (home w);
  same_ml : mlByStrategy (home w') = mlByStrategy (home w);
  same_paper : paperByStrategy (home w') = paperByStrategy (home w);
  same_favorites : favorites w' = favorites w;
  same_alerts : alerts w' = alerts w
}.

(** The selection a reload ends with, for the closure [c] and the
    listing [files]. *)
Lemma reloadStrategies_run (o : Remote) (c : HomePage) (w : World) (files : list Strategy) :
  o _ GetStrategies = Fulfilled files →
  ∃ sel : option string,
    exec o (reloadStrategies c) w
    = {| final := onHome (setSelectedPath sel) (onHome (setStrategies files) w);
         calls := [call GetStrategies]; rejection := None |}
    ∧ (files = [] → sel = None)
    ∧ (∀ id, selectedPath c = Some id → id ∉ registryIds files →
         sel = path <$> head files)
    ∧ (∀ id, truthyPath (selectedPath c) = Some id → id ∈ registryIds files →
         sel = selectedPath (home w)).
Proof.
  intros Ho. unfold reloadStrategies.
  rewrite (exec_await_ok o _ _ w files Ho), exec_update.
  destruct files as [|f fs].
  { exists None. split; [reflexivity|]. split; [done|]. split; [done|].
    intros id _ Hin. by apply elem_of_nil in Hin. }
  destruct (truthyPath (selectedPath c)) as [sp|] eqn:Hsel.
  - destruct (existsb (λ f0, bool_decide (path f0 = sp)) (f :: fs)) eqn:Hex.
    + exists (selectedPath (home w)). split.
      { by destruct w as [[] ? ? ? ? ? ? ? ?]. }
      split; [done|]. split; [|done].
      intros id Hid Hno. exfalso.
      assert (sp = id) as ->.
      { unfold truthyPath in Hsel. rewrite Hid in Hsel. case_decide; congruence. }
      apply Hno. apply existsb_exists in Hex as (f0 & Hin & Hf).
      apply bool_decide_eq_true in Hf. unfold registryIds.
      apply list_elem_of_fmap. exists f0. split; [done|]. by apply list_elem_of_In.
    + exists (Some (path f)). split; [reflexivity|]. split; [done|].
      split; [done|].
      intros id [= ->] Hin. exfalso.
      apply not_true_iff_false in Hex. apply Hex. apply existsb_exists.
      unfold registryIds in Hin. apply list_elem_of_fmap in Hin as (f0 & -> & Hin).
      exists f0. split; [by apply list_elem_of_In|]. by apply bool_decide_eq_true.
  - exists (Some (path f)). split; [reflexivity|]. split; [done|]. split; [done|].
    intros id [=].
Qed.

Lemma reloadStrategies_ok (o : Remote) (c : HomePage) (w : World) (files : list Strategy) :
  o _ GetStrategies = Fulfilled files →
  rejection (exec o (reloadStrategies c) w) = None
  ∧ calls (exec o (reloadStrategies c) w) = [call GetStrategies]
  ∧ strategies (home (final (exec o (reloadStrategies c) w))) = files
  ∧ sameCaches w (final (exec o (reloadStrategies c) w)).
Proof.
  intros Ho. destruct (reloadStrategies_run o c w files Ho) as (sel & -> & _).
  by repeat split.
Qed.

Lemma reloadStrategies_failed (o : Remote) (c : HomePage) (w : World) (e : string) :
  o _ GetStrategies = Rejected e →
  exec o (reloadStrategies c) w
  = {| final := w; calls := [call GetStrategies]; rejection := Some e |}.
Proof. intros Ho. unfold reloadStrategies. by rewrite (exec_await_failed o _ _ w e Ho). Qed.

(** ** Rename *)


Lemma renameStrategy_failed (o : Remote) (c : HomePage) (w : World)
    (oldId newId e : string) :
  o _ (PostRename oldId newId) = Rejected e →
  exec o (renameStrategy c oldId newId) w
  = {| final := w; calls := [call (PostRename oldId newId)]; rejection := Some e |}.
Proof. intros Ho. unfold renameStrategy. by rewrite (exec_await_failed o _ _ w e Ho). Qed.






(** ** Registry reload *)

Lemma reloadStrategies_frame (o : Remote) (c : HomePage) (w : World) :
  calls (exec o (reloadStrategies c) w) = [call GetStrategies]
  ∧ sameCaches w (final (exec o (reloadStrategies c) w)).
Proof.
  destruct (o _ GetStrategies) as [files|e] eqn:Ho.
  - destruct (reloadStrategies_ok o c w files Ho) as (_ & ? & _ & ?). by split.
  - rewrite (reloadStrategies_failed o c w e Ho). by repeat split.
Qed.


(** ** Delete *)





(** Deleting the only strategy leaves its star in place: the
    reconciliation pass returns at once over the now empty registry. *)
Lemma delete_last_keeps_favorite :
  let r := exec (remoteWith [] []) (deleteStrategy workspaceHome "a.py") workspace in
  rejection r = None
  ∧ strategies (home (final r)) = []
  ∧ "a.py" ∈ favorites (reconcile (final r)).
Proof. repeat split. vm_compute. apply list_elem_of_here. Qed.

(** ** Save *)

Lemma paramRanges_fold (specs : list StrategyParamSpec) (acc : gmap string MlRange)
    (n : string) :
  fold_left (λ acc p,
    if decide (param_name p = "__proto__") then acc
    else <[param_name p := rangeOf p]> acc) specs acc !! n
  = match last (filter (λ p, param_name p = n ∧ param_name p ≠ "__proto__") specs) with
    | Some p => Some (rangeOf p)
    | None => acc !! n
    end.
Proof.
  revert acc. induction specs as [|p specs IH]; intros acc; [done|].
  cbn [fold_left]. rewrite IH, filter_cons.
  destruct (decide (param_name p = "__proto__")) as [Hproto|Hproto].
  - rewrite decide_False by tauto. done.
  - destruct (decide (param_name p = n)) as [<-|Hne].
    + rewrite decide_True by done. rewrite last_cons.
      destruct (last _); [done|]. by rewrite lookup_insert_eq.
    + rewrite decide_False by tauto.
      destruct (last _); [done|]. by rewrite lookup_insert_ne.
Qed.

(** The ranges give each declared parameter, the name [__proto__]
    apart, its suggested bounds (the last declaration wins when a name is
    declared twice). *)
Lemma paramRanges_lookup (specs : list StrategyParamSpec) (n : string) :
  paramRanges specs !! n
  = rangeOf <$> last (filter (λ p, param_name p = n ∧ param_name p ≠ "__proto__") specs).
Proof.
  unfold paramRanges. rewrite paramRanges_fold, lookup_empty. by destruct (last _).
Qed.

(** C3, as the code has it: a save of the active strategy [id] whose
    write and parameter fetch both succeed issues the parameter fetch
    after the write, removes the cached backtest of [id], replaces the
    tuning entry of [id] by an empty one whose ranges are those of the
    fetched parameters, and leaves the entry of every other strategy as
    it was in every bucket, whatever the closing registry reload
    answers. *)
Theorem save_invalidates_own_entries_only (o : Remote) (c : HomePage) (w : World)
    (id : string) (meta : ParamsResponse) :
  truthyPath (selectedPath c) = Some id →
  o _ (PostSave id (code c)) = Fulfilled tt →
  o _ (GetStrategyParams id) = Fulfilled meta →
  let r := exec o (saveStrategy c) w in
  let fresh := paramRanges (default [] (params meta)) in
  calls r = [call (PostSave id (code c)); call (GetStrategyParams id); call GetStrategies]
  ∧ backtestByStrategy (home (final r)) !! id = None
  ∧ mlByStrategy (home (final r)) !! id
    = Some {| resultText := ""; bestRun := None; ml_error := ""; ranges := fresh |}
  ∧ (∀ other, other ≠ id →
       codeByStrategy (home (final r)) !! other = codeByStrategy (home w) !! other
       ∧ backtestByStrategy (home (final r)) !! other
         = backtestByStrategy (home w) !! other
       ∧ mlByStrategy (home (final r)) !! other = mlByStrategy (home w) !! other
       ∧ paperByStrategy (home (final r)) !! other = paperByStrategy (home w) !! other
       ∧ paramSpecsByStrategy (home (final r)) !! other
         = paramSpecsByStrategy (home w) !! other).
Proof.
  intros Hsel Hpost Hget r fresh.
  assert (∃ w1,
    r = after (call (PostSave id (code c)))
          (after (call (GetStrategyParams id)) (exec o (reloadStrategies c) w1))
    ∧ codeByStrategy (home w1) = <[id := code c]> (codeByStrategy (home w))
    ∧ paramSpecsByStrategy (home w1)
      = <[id := default [] (params meta)]> (paramSpecsByStrategy (home w))
    ∧ backtestByStrategy (home w1) = delete id (backtestByStrategy (home w))
    ∧ mlByStrategy (home w1)
      = <[id := {| resultText := ""; bestRun := None; ml_error := ""; ranges := fresh |}]>
          (mlByStrategy (home w))
    ∧ paperByStrategy (home w1) = paperByStrategy (home w))
    as (w1 & Hr & Hc1 & Hs1 & Hb1 & Hm1 & Hp1).
  { subst r. unfold saveStrategy. rewrite Hsel.
    rewrite (exec_await_ok o _ _ w tt Hpost), exec_update.
    rewrite (exec_await_ok o _ _ _ meta Hget), !exec_update.
    eexists. split; [reflexivity|]. by repeat split. }
  clearbody r. subst r. unfold after. cbn [final calls rejection].
  destruct (reloadStrategies_frame o c w1) as (-> & [Hc Hs Hb Hm Hp _ _]).
  rewrite Hc, Hs, Hb, Hm, Hp, Hc1, Hs1, Hb1, Hm1, Hp1.
  split; [done|]. split; [apply lookup_delete_eq|]. split; [apply lookup_insert_eq|].
  intros other Hne.
  rewrite !lookup_insert_ne by done. by rewrite lookup_delete_ne.
Qed.

Lemma save_invalidates_own_entries_only_witness :
  let r := exec (remoteWith [strategyFile "a.py"; strategyFile "b.py"] [fastSpec])
             (saveStrategy workspaceHome) twoCached in
  backtestByStrategy (home (final r)) !! "a.py" = None
  ∧ ranges <$> mlByStrategy (home (final r)) !! "a.py" = Some {[ "fast" := fastRange ]}
  ∧ backtestByStrategy (home (final r)) !! "b.py" = Some sampleBacktest.
Proof.
  intros r.
  destruct (save_invalidates_own_entries_only
              (remoteWith [strategyFile "a.py"; strategyFile "b.py"] [fastSpec])
              workspaceHome twoCached "a.py" {| params := Some [fastSpec] |})
    as (_ & Hb & Hm & Hother).
  - reflexivity.
  - reflexivity.
  - reflexivity.
  - split; [exact Hb|]. split.
    + subst r. rewrite Hm. reflexivity.
    + destruct (Hother "b.py") as (_ & Hb' & _); [discriminate|].
      subst r. rewrite Hb'. reflexivity.
Defined.

(** C3 as stated fails when the write succeeds and the parameter fetch
    that follows it fails: the save rejects after these two calls, the
    strategy is saved and its text is in the code cache, and its cached
    backtest and its tuning entry, ranges included, are still there. *)
Lemma save_with_failed_parameter_fetch_keeps_backtest :
  let r := exec (paramsDown "GET /strategy-params/a.py failed (500)")
             (saveStrategy (setCode "X=2" workspaceHome)) workspace in
  calls r = [call (PostSave "a.py" "X=2"); call (GetStrategyParams "a.py")]
  ∧ rejection r = Some "GET /strategy-params/a.py failed (500)"
  ∧ codeByStrategy (home (final r)) !! "a.py" = Some "X=2"
  ∧ backtestByStrategy (home (final r)) !! "a.py" = Some sampleBacktest
  ∧ mlByStrategy (home (final r)) !! "a.py" = Some sampleTuning.
Proof. vm_compute. by repeat split. Qed.

(** ** Tuning *)

Lemma rangesPayload_empty (c : HomePage) :
  size (rangesPayloadOf c) = 0%nat ↔ mlRanges c = ∅.
Proof.
  unfold rangesPayloadOf. rewrite map_size_fmap. apply map_size_empty_iff.
Qed.

Lemma runOptimization_without_ranges (c : HomePage) (id : string) :
  truthyPath (selectedPath c) = Some id →
  mlRanges c = ∅ →
  runOptimization c
  = Update (onHome (setMlError noParamsMessage))
      (Update (onHome (setMlByStrategy (λ prev,
         <[id := mlFailureEntry c noParamsMessage]> prev))) Return).
Proof.
  intros Hsel Hempty. unfold runOptimization. rewrite Hsel.
  by rewrite decide_True by by apply rangesPayload_empty.
Qed.

(** The tuning flow proper, once an id is active and ranges exist. *)
Lemma runOptimization_with_ranges (c : HomePage) (id : string) :
  truthyPath (selectedPath c) = Some id →
  mlRanges c ≠ ∅ →
  runOptimization c
  = Update (onHome (setMlLoading true))
      (Update (onHome (setMlError ""))
         (Update (onHome (setMlBestResult None))
            (Await (PostOptimize id (rangesPayloadOf c)) (λ r,
               finally
                 (tryCatch
                    (match r with
                     | Fulfilled res =>
                         Update (onHome (setOptuna (JSON_stringify res)))
                           (await (PostBacktest id (Some (best_params res))) (λ best,
                              Update (onHome (setMlBestResult (Some best)))
                                (Update (onHome (setMlByStrategy (λ prev,
                                   <[id := {| resultText := JSON_stringify res;
                                              bestRun := Some best; ml_error := "";
                                              ranges := mlRanges c |}]> prev)))
                                   Return)))
                     | Rejected e => Throw e
                     end)
                    (λ err,
                       Update (onHome (setMlError (errText err)))
                         (Update (onHome (setMlByStrategy (λ prev,
                            <[id := mlFailureEntry c (errText err)]> prev))) Return)))
                 (Update (onHome (setMlLoading false)) Return))))).
Proof.
  intros Hsel Hne. unfold runOptimization. rewrite Hsel.
  rewrite decide_False by (by rewrite rangesPayload_empty).
  reflexivity.
Qed.


Lemma runOptimization_transport_failure (o : Remote) (c : HomePage) (w : World)
    (id err : string) :
  truthyPath (selectedPath c) = Some id →
  mlRanges c ≠ ∅ →
  o _ (PostOptimize id (rangesPayloadOf c)) = Rejected err →
  let r := exec o (runOptimization c) w in
  calls r = [call (PostOptimize id (rangesPayloadOf c))]
  ∧ mlError (home (final r)) = errText err
  ∧ mlByStrategy (home (final r)) !! id = Some (mlFailureEntry c (errText err)).
Proof.
  intros Hsel Hne Ho. rewrite (runOptimization_with_ranges c id) by done.
  simpl. rewrite Ho. simpl. split; [done|]. split; [done|]. apply lookup_insert_eq.
Qed.

(** C8, as the code has it: a tuning run asked for while no range is
    configured makes no remote call; it sets the visible error and writes
    on the active strategy's entry the same record a transport failure
    writes, that is the error text with the resultText, bestRun and
    ranges that are displayed at that moment.  Those are the entry's own
    previous resultText and bestRun whenever the display mirrors the
    entry. *)
Theorem tuning_without_ranges_fails_locally (o : Remote) (c : HomePage) (w : World)
    (id : string) :
  truthyPath (selectedPath c) = Some id →
  mlRanges c = ∅ →
  let r := exec o (runOptimization c) w in
  calls r = []
  ∧ rejection r = None
  ∧ mlError (home (final r)) = noParamsMessage
  ∧ mlByStrategy (home (final r)) !! id = Some (mlFailureEntry c noParamsMessage)
  ∧ (∀ other, other ≠ id →
       mlByStrategy (home (final r)) !! other = mlByStrategy (home w) !! other)
  ∧ (∀ (o' : Remote) (c' : HomePage) (w' : World) (err : string),
       truthyPath (selectedPath c') = Some id →
       mlRanges c' ≠ ∅ →
       o' _ (PostOptimize id (rangesPayloadOf c')) = Rejected err →
       mlByStrategy (home (final (exec o' (runOptimization c') w'))) !! id
       = Some (mlFailureEntry c' (errText err)))
  ∧ (∀ e, mlByStrategy (home w) !! id = Some e →
       resultText e = optuna c → bestRun e = mlBestResult c →
       resultText <$> mlByStrategy (home (final r)) !! id = Some (resultText e)
       ∧ bestRun <$> mlByStrategy (home (final r)) !! id = Some (bestRun e)).
Proof.
  intros Hsel Hempty r. subst r.
  rewrite (runOptimization_without_ranges c id) by done. simpl.
  rewrite lookup_insert_eq.
  split; [done|]. split; [done|]. split; [done|]. split; [done|].
  split; [intros other Hne; by rewrite lookup_insert_ne|].
  split.
  - intros o' c' w' err H1 H2 H3.
    by destruct (runOptimization_transport_failure o' c' w' id err H1 H2 H3) as (_ & _ & ?).
  - intros e _ -> ->. by simpl.
Qed.

Lemma tuning_without_ranges_fails_locally_witness :
  let bare := onHome (setMlRanges ∅) workspace in
  let r := exec (remoteDown "unreachable") (runOptimization (home bare)) bare in
  calls r = []
  ∧ mlByStrategy (home (final r)) !! "a.py"
    = Some {| resultText := "{}"; bestRun := Some sampleBacktest;
              ml_error := noParamsMessage; ranges := ∅ |}.
Proof.
  intros bare r.
  destruct (tuning_without_ranges_fails_locally (remoteDown "unreachable")
              (home bare) bare "a.py") as (Hcalls & _ & _ & Hentry & _).
  - reflexivity.
  - reflexivity.
  - split; [exact Hcalls|]. exact Hentry.
Defined.

(** C8 as stated fails on its last part: after a completed tuning run
    and a save that leaves the strategy without parameters, the entry of
    [a.py] holds an empty resultText and no bestRun, while the display
    still shows the finished run; the next tuning request makes no call
    and overwrites the entry's resultText and bestRun with the displayed
    ones. *)
Lemma tuning_without_ranges_overwrites_entry :
  let before := steps (mounted None) tuneThenSave in
  let after := step before ClickRunOptimization in
  mlRanges (home (world before)) = ∅
  ∧ issued after = issued before
  ∧ resultText <$> mlByStrategy (home (world before)) !! "a.py" = Some ""
  ∧ bestRun <$> mlByStrategy (home (world before)) !! "a.py" = Some None
  ∧ resultText <$> mlByStrategy (home (world after)) !! "a.py"
    ≠ resultText <$> mlByStrategy (home (world before)) !! "a.py"
  ∧ bestRun <$> mlByStrategy (home (world after)) !! "a.py" = Some (Some sampleBacktest).
Proof.
  vm_compute. repeat split; try reflexivity. discriminate.
Qed.

(** ** Failures of remote calls *)

Lemma caught_never_rejects (o : Remote) (p : Async) (h : string → Async) (w : World) :
  (∀ e w', rejection (exec o (h e) w') = None) →
  rejection (exec o (tryCatch p h) w) = None.
Proof.
  intros Hh. rewrite exec_tryCatch.
  destruct (rejection (exec o p w)) as [e|] eqn:E; [|done].
  unfold joinRuns. simpl. apply Hh.
Qed.



Lemma renameFlow_never_rejects (o : Remote) (c w : World) (oldId newId : string) :
  rejection (exec o (renameFlow c oldId newId) w) = None.
Proof. unfold renameFlow. by apply caught_never_rejects. Qed.

Lemma renameFlow_failure (o : Remote) (c w : World) (oldId newId err : string) :
  o _ (PostRename oldId newId) = Rejected err →
  final (exec o (renameFlow c oldId newId) w) = withAlerts (λ l, l ++ [errText err]) w.
Proof.
  intros Ho. unfold renameFlow.
  rewrite exec_tryCatch, exec_andThen, (renameStrategy_failed o _ w oldId newId err Ho).
  reflexivity.
Qed.





Lemma renameFlow_accepted (o : Remote) (c w : World) (oldId newId : string) :
  o _ (PostRename oldId newId) = Fulfilled tt →
  exec o (renameFlow c oldId newId) w
  = after (call (PostRename oldId newId))
      (exec o (renameTail c oldId newId) (bucketsRenamed oldId newId w)).
Proof.
  intros Hpost. unfold renameFlow, renameStrategy, await.
  cbn [andThen tryCatch exec]. rewrite Hpost.
  cbn [andThen tryCatch]. by rewrite !exec_update.
Qed.












(** ** The event loop: basic facts *)

Lemma run_timer (p : Async) (s : System) : timer (run p s) = timer s.
Proof. revert s. induction p; intros s; simpl; rewrite ?IHp; done. Qed.

Lemma run_world (p : Async) (s : System) : world (run p s) = advance p (world s).
Proof. revert s. induction p; intros s; simpl; rewrite ?IHp; done. Qed.

Lemma run_tasks (p : Async) (s : System) :
  tasks (run p s) = tasks s ++ option_list (pendingOf p).
Proof.
  revert s. induction p; intros s; simpl; rewrite ?app_nil_r, ?IHp; done.
Qed.

Lemma run_issued (p : Async) (s : System) :
  issued (run p s)
  = issued s ++ ((λ t, call (task_req t)) <$> option_list (pendingOf p)).
Proof.
  revert s. induction p; intros s; simpl; rewrite ?app_nil_r, ?IHp; done.
Qed.

Lemma commit_quiet (pre : HomePage) (s : System) :
  selectedPath (home (world s)) = selectedPath pre →
  view (home (world s)) = view pre →
  paperSession (home (world s)) = paperSession pre →
  commit pre s = onWorld reconcile s.
Proof.
  intros Hsel Hview Hsid. unfold commit.
  destruct (decide (selectedPath (home (world s)) = selectedPath pre)); [|done].
  cbn [world onWorld]. rewrite reconcile_home.
  destruct (decide _) as [|Hno]; [done|]. by destruct Hno.
Qed.

(** Settling the [i]-th call in flight resumes the handler behind it. *)
Lemma handle_settle (s : System) (i : nat) (o : Remote) (t : Task) :
  tasks s !! i = Some t →
  handle (Settle i o) s
  = run (task_k t (o _ (task_req t))) (withTasks (delete i (tasks s)) s).
Proof. intros E. simpl. by rewrite E. Qed.

(** ** Tuning flow on the event loop *)

Lemma step_settle (s : System) (i : nat) (o : Remote) (t : Task) :
  tasks s !! i = Some t →
  step s (Settle i o)
  = commit (home (world s))
      (run (task_k t (o _ (task_req t))) (withTasks (delete i (tasks s)) s)).
Proof. intros E. unfold step. by rewrite (handle_settle s i o t E). Qed.

(** A handler that leaves the selection, the view and the displayed
    session alone triggers no effect but the sidebar's reconciliation. *)
Lemma commit_run_quiet (pre : HomePage) (p : Async) (s : System) :
  selectedPath (home (advance p (world s))) = selectedPath pre →
  view (home (advance p (world s))) = view pre →
  paperSession (home (advance p (world s))) = paperSession pre →
  commit pre (run p s) = onWorld reconcile (run p s).
Proof. intros ? ? ?. apply commit_quiet; by rewrite run_world. Qed.

(** C5: in the tuning flow the click issues the optimisation call
    alone; the best-params backtest call is issued by the very step that
    receives the optimisation answer, and never if that call fails; and
    when the backtest answer arrives, in whatever state the page then is
    (another strategy may be active), the finished result is written to
    the tuning entry of the strategy that was active at the click, every
    other entry being left as it is. *)
Theorem tuning_flow_commits_to_originating_strategy (s : System) (id : string) :
  let c := home (world s) in
  truthyPath (selectedPath c) = Some id →
  mlRanges c ≠ ∅ →
  ∃ k1 : settled OptimizeResponse → Async,
    tasks (step s ClickRunOptimization)
    = tasks s ++ [mkTask _ (PostOptimize id (rangesPayloadOf c)) k1]
    ∧ issued (step s ClickRunOptimization)
      = issued s ++ [call (PostOptimize id (rangesPayloadOf c))]
    ∧ (∀ (s1 : System) (i : nat) (o : Remote) (err : string),
         tasks s1 !! i = Some (mkTask _ (PostOptimize id (rangesPayloadOf c)) k1) →
         o _ (PostOptimize id (rangesPayloadOf c)) = Rejected err →
         issued (step s1 (Settle i o)) = issued s1
         ∧ tasks (step s1 (Settle i o)) = delete i (tasks s1))
    ∧ (∀ (s1 : System) (i : nat) (o : Remote) (res : OptimizeResponse),
         tasks s1 !! i = Some (mkTask _ (PostOptimize id (rangesPayloadOf c)) k1) →
         o _ (PostOptimize id (rangesPayloadOf c)) = Fulfilled res →
         ∃ k2 : settled BacktestResult → Async,
           tasks (step s1 (Settle i o))
           = delete i (tasks s1)
             ++ [mkTask _ (PostBacktest id (Some (best_params res))) k2]
           ∧ issued (step s1 (Settle i o))
             = issued s1 ++ [call (PostBacktest id (Some (best_params res)))]
           ∧ ∀ (s2 : System) (j : nat) (o2 : Remote) (best : BacktestResult),
               tasks s2 !! j
               = Some (mkTask _ (PostBacktest id (Some (best_params res))) k2) →
               o2 _ (PostBacktest id (Some (best_params res))) = Fulfilled best →
               mlByStrategy (home (world (step s2 (Settle j o2)))) !! id
               = Some {| resultText := JSON_stringify res; bestRun := Some best;
                         ml_error := ""; ranges := mlRanges c |}
               ∧ ∀ other, other ≠ id →
                   mlByStrategy (home (world (step s2 (Settle j o2)))) !! other
                   = mlByStrategy (home (world s2)) !! other).
Proof.
  intros c Hsel Hne. eexists. split; [|split; [|split]].
  - unfold step. cbn [handle]. fold c.
    rewrite (runOptimization_with_ranges c id Hsel Hne).
    rewrite commit_run_quiet by done.
    cbn [tasks onWorld]. rewrite run_tasks. reflexivity.
  - unfold step. cbn [handle]. fold c.
    rewrite (runOptimization_with_ranges c id Hsel Hne).
    rewrite commit_run_quiet by done.
    cbn [issued onWorld]. rewrite run_issued. reflexivity.
  - intros s1 i o err Ht Ho. rewrite (step_settle s1 i o _ Ht).
    cbn [task_k task_req task_ty]. rewrite Ho.
    rewrite commit_run_quiet by done.
    cbn [tasks issued onWorld]. rewrite run_tasks, run_issued.
    cbn. by rewrite !app_nil_r.
  - intros s1 i o res Ht Ho. eexists. split; [|split].
    + rewrite (step_settle s1 i o _ Ht).
      cbn [task_k task_req task_ty]. rewrite Ho.
      rewrite commit_run_quiet by done.
      cbn [tasks onWorld]. rewrite run_tasks. reflexivity.
    + rewrite (step_settle s1 i o _ Ht).
      cbn [task_k task_req task_ty]. rewrite Ho.
      rewrite commit_run_quiet by done.
      cbn [issued onWorld]. rewrite run_issued. reflexivity.
    + intros s2 j o2 best Ht2 Ho2. rewrite (step_settle s2 j o2 _ Ht2).
      cbn [task_k task_req task_ty]. rewrite Ho2.
      rewrite commit_run_quiet by done.
      cbn [world onWorld]. rewrite reconcile_home, run_world.
      cbn. split; [apply lookup_insert_eq|].
      intros other Hother. by rewrite lookup_insert_ne.
Qed.

(** ** The event loop: projections *)

Lemma world_onWorld (f : World → World) (s : System) : world (onWorld f s) = f (world s).
Proof. reflexivity. Qed.


Lemma timer_onWorld (f : World → World) (s : System) : timer (onWorld f s) = timer s.
Proof. reflexivity. Qed.

Lemma issued_onWorld (f : World → World) (s : System) : issued (onWorld f s) = issued s.
Proof. reflexivity. Qed.

Lemma world_withTasks (l : list Task) (s : System) : world (withTasks l s) = world s.
Proof. reflexivity. Qed.

Lemma timer_withTasks (l : list Task) (s : System) : timer (withTasks l s) = timer s.
Proof. reflexivity. Qed.

Lemma home_onHome (f : HomePage → HomePage) (w : World) : home (onHome f w) = f (home w).
Proof. reflexivity. Qed.

Lemma truthyPath_Some (p : option string) (id : string) :
  truthyPath p = Some id ↔ p = Some id ∧ id ≠ "".
Proof.
  unfold truthyPath. split.
  - destruct p as [q|]; [|done]. case_decide; [done|]. by intros [= ->].
  - intros [-> Hne]. by rewrite decide_False.
Qed.

(** The hydration effect, once a strategy is active: the restored view
    state, then the code and the parameters, each from the cache or by a
    fetch. *)
Lemma hydrationEffect_active (c : HomePage) (s : System) (id : string) :
  truthyPath (selectedPath c) = Some id →
  hydrationEffect c s
  = let g := S (activeEffect (world s)) in
    let s1 := onWorld (onHome (restoreCached c id)) (onWorld (withActiveEffect g) s) in
    let s2 := match codeByStrategy c !! id with
              | Some cachedCode => onWorld (onHome (setCode cachedCode)) s1
              | None => run (fetchCode g id) s1
              end in
    let noRanges := match mlByStrategy c !! id with Some _ => false | None => true end in
    match paramSpecsByStrategy c !! id with
    | Some cachedParams =>
        let s3 := onWorld (onHome (setMlParamSpecs cachedParams)) s2 in
        if noRanges then onWorld (onHome (setMlRanges (paramRanges cachedParams))) s3
        else s3
    | None => run (fetchParams g id noRanges) s2
    end.
Proof. intros Hsel. unfold hydrationEffect. by rewrite Hsel. Qed.

Lemma hydrationEffect_idle (c : HomePage) (s : System) :
  truthyPath (selectedPath c) = None →
  hydrationEffect c s = onWorld (withActiveEffect (S (activeEffect (world s)))) s.
Proof. intros Hsel. unfold hydrationEffect. by rewrite Hsel. Qed.

Lemma hydrationEffect_timer (c : HomePage) (s : System) :
  timer (hydrationEffect c s) = timer s.
Proof.
  destruct (truthyPath (selectedPath c)) as [id|] eqn:Hsel.
  - rewrite (hydrationEffect_active c s id Hsel). cbv zeta.
    destruct (paramSpecsByStrategy c !! id); destruct (codeByStrategy c !! id);
      destruct (mlByStrategy c !! id);
      by rewrite ?run_timer, ?timer_onWorld, ?run_timer, ?timer_onWorld.
  - by rewrite (hydrationEffect_idle c s Hsel).
Qed.

(** What the hydration effect restores and fetches. *)
Lemma hydrationEffect_restores (c : HomePage) (s : System) (id : string) :
  truthyPath (selectedPath c) = Some id →
  let h := home (world (hydrationEffect c s)) in
  result h = backtestByStrategy c !! id
  ∧ mlBestResult h = mlByStrategy c !! id ≫= bestRun
  ∧ optuna h = default "" (resultText <$> mlByStrategy c !! id)
  ∧ mlError h = default "" (ml_error <$> mlByStrategy c !! id)
  ∧ paperSession h = cachedSession c id
  ∧ paperError h = default "" (paper_error <$> paperByStrategy c !! id)
  ∧ paperState h = paperByStrategy c !! id ≫= state
  ∧ mlRanges h
    = match mlByStrategy c !! id with
      | Some entry => ranges entry
      | None => default ∅ (paramRanges <$> paramSpecsByStrategy c !! id)
      end
  ∧ issued (hydrationEffect c s)
    = issued s
      ++ match codeByStrategy c !! id with
         | Some _ => []
         | None => [call (GetStrategy id)]
         end
      ++ match paramSpecsByStrategy c !! id with
         | Some _ => []
         | None => [call (GetStrategyParams id)]
         end.
Proof.
  intros Hsel h. subst h. rewrite (hydrationEffect_active c s id Hsel). cbv zeta.
  unfold cachedSession, restoreCached. cbv zeta.
  destruct (paramSpecsByStrategy c !! id); destruct (codeByStrategy c !! id);
    destruct (mlByStrategy c !! id);
    rewrite ?run_world, ?run_issued, ?world_onWorld, ?issued_onWorld,
      ?run_world, ?run_issued, ?world_onWorld, ?issued_onWorld;
    cbn [pendingOf fetchCode fetchParams tryCatch await option_list fmap list_fmap
         advance task_req app];
    rewrite <- ?app_assoc, ?app_nil_r; by repeat split.
Qed.


(** ** Polling *)

(** The shape of a refresh once a strategy is active and a session id
    is displayed. *)
Lemma refreshGuarded_active (c : HomePage) (id : string) :
  truthyPath (selectedPath c) = Some id →
  paperSession c ≠ "" →
  refreshGuarded c
  = Update (onHome (setPaperLoading true))
      (Await (GetPaperState (paperSession c)) (λ r,
         tryCatch
           (finally
              (tryCatch
                 (match r with
                  | Fulfilled st =>
                      Update (onHome (setPaperState (Some st)))
                        (Update (onHome (setPaperError ""))
                           (Update (onHome (setPaperByStrategy (λ prev,
                              <[id := {| sessionId := paperSession c; paper_error := "";
                                         state := Some st |}]> prev))) Return))
                  | Rejected e => Throw e
                  end)
                 (λ err,
                    Update (onHome (setPaperError (errText err)))
                      (Update (onHome (setPaperByStrategy (λ prev,
                         <[id := {| sessionId := paperSession c;
                                    paper_error := errText err;
                                    state := paperState c |}]> prev))) Return)))
              (Update (onHome (setPaperLoading false)) Return))
           (λ err, Update (onHome (setPaperError (errText err))) Return))).
Proof.
  intros Hsel Hsid. unfold refreshGuarded, refreshPaperState. rewrite Hsel.
  rewrite decide_False by done. reflexivity.
Qed.

Lemma refreshGuarded_idle (c : HomePage) :
  truthyPath (selectedPath c) = None → refreshGuarded c = Return.
Proof. intros Hsel. unfold refreshGuarded, refreshPaperState. by rewrite Hsel. Qed.

(** A refresh starts by raising the loading flag, or does nothing. *)
Lemma refreshGuarded_start (c : HomePage) :
  paperSession c ≠ "" →
  (pendingOf (refreshGuarded c) = None
   ∧ ∀ w, advance (refreshGuarded c) w = w)
  ∨ (∃ k, pendingOf (refreshGuarded c)
          = Some (mkTask _ (GetPaperState (paperSession c)) k)
     ∧ ∀ w, advance (refreshGuarded c) w = onHome (setPaperLoading true) w).
Proof.
  intros Hsid. destruct (truthyPath (selectedPath c)) as [id|] eqn:Hsel.
  - right. rewrite (refreshGuarded_active c id Hsel Hsid). by eexists.
  - left. by rewrite (refreshGuarded_idle c Hsel).
Qed.


(** The hydration effect displays the session cached for the strategy
    it hydrates. *)
Lemma hydrationEffect_session (c : HomePage) (s : System) (id : string) :
  truthyPath (selectedPath c) = Some id →
  paperSession (home (world (hydrationEffect c s))) = cachedSession c id
  ∧ view (home (world (hydrationEffect c s))) = view (home (world s))
  ∧ selectedPath (home (world (hydrationEffect c s))) = selectedPath (home (world s)).
Proof.
  intros Hsel. rewrite (hydrationEffect_active c s id Hsel). cbv zeta.
  destruct (paramSpecsByStrategy c !! id); destruct (codeByStrategy c !! id);
    destruct (mlByStrategy c !! id);
    rewrite ?run_world, ?world_onWorld, ?run_world, ?world_onWorld;
    by repeat split.
Qed.

Lemma pollingEffect_world (c : HomePage) (s : System) :
  world (pollingEffect c s) = world s
  ∨ world (pollingEffect c s) = onHome (setPaperLoading true) (world s).
Proof.
  unfold pollingEffect. case_decide; [|by left]. case_decide as Hsid; [by left|].
  rewrite !run_world.
  destruct (refreshGuarded_start c Hsid) as [[_ Ha]|(k & _ & Ha)]; rewrite !Ha;
    [by left|by right].
Qed.








Lemma step_select (s : System) (id : string) :
  step s (Select id)
  = commit (home (world s)) (onWorld (onHome (setSelectedPath (Some id))) s).
Proof. reflexivity. Qed.





Lemma tuning_flow_commits_to_originating_strategy_witness :
  issued (step pageReady ClickRunOptimization)
  = issued pageReady
    ++ [call (PostOptimize "a.py" (rangesPayloadOf (home (world pageReady))))].
Proof.
  destruct (tuning_flow_commits_to_originating_strategy pageReady "a.py")
    as (k1 & _ & Hissued & _).
  - vm_compute. reflexivity.
  - intros Hempty. apply (f_equal (λ m, m !! "fast")) in Hempty.
    vm_compute in Hempty. discriminate.
  - exact Hissued.
Defined.

(** The scenario of the tuning flow with a switch in the middle: the
    best run of [a.py] arrives while [b.py] is active and is written to
    the entry of [a.py]; [b.py] gets no entry. *)
Lemma tuning_result_follows_originating_strategy :
  let s := steps pageReady
             [ClickRunOptimization; Settle 0 serviceUp; Select "b.py"; Settle 0 serviceUp] in
  selectedPath (home (world s)) = Some "b.py"
  ∧ bestRun <$> mlByStrategy (home (world s)) !! "a.py" = Some (Some sampleBacktest)
  ∧ mlByStrategy (home (world s)) !! "b.py" = None.
Proof. vm_compute. by repeat split. Qed.



(** ** Browsing sessions: what the editor shows *)

Lemma lastCommitted_nil (id : string) : lastCommitted id [] = None.
Proof. reflexivity. Qed.





























(** ** Unsaved edits *)














(** ** What the editor shows after a selection *)








Lemma lookup_request (l rest : list Task) (t : Task) :
  (λ t, call (task_req t)) <$> (l ++ t :: rest) !! length l = Some (call (task_req t)).
Proof. by rewrite list_lookup_middle. Qed.




(** * Further properties of the workspace code *)

(** ** The favourites index *)

Lemma filter_all {A : Type} (P : A → Prop) `{!∀ x, Decision (P x)} (l : list A) :
  Forall P l → filter P l = l.
Proof.
  induction 1 as [|x l Hx _ IH]; [done|]. by rewrite filter_cons_True, IH.
Qed.

(** X1: starring or unstarring a strategy flips its own membership in
    the favourites, leaves every other id's membership as the render
    showed it, makes no remote call, and stores exactly the new list. *)
Theorem toggleFavorite_flips (o : Remote) (c w : World) (p : string) :
  let r := exec o (toggleFavorite c p) w in
  calls r = []
  ∧ rejection r = None
  ∧ (p ∈ favorites (final r) ↔ p ∉ favorites c)
  ∧ (∀ q, q ≠ p → q ∈ favorites (final r) ↔ q ∈ favorites c)
  ∧ localStorage (final r) = Some (favorites (final r))
  ∧ home (final r) = home w.
Proof.
  intros r. subst r. unfold toggleFavorite. rewrite !exec_update.
  cbn [exec final calls rejection]. split; [done|]. split; [done|].
  cbn [favorites withFavorites withLocalStorage localStorage home].
  destruct (bool_decide (p ∈ favorites c)) eqn:Hin.
  - apply bool_decide_eq_true in Hin. split; [|split; [|done]].
    + rewrite list_elem_of_filter. tauto.
    + intros q Hq. rewrite list_elem_of_filter. tauto.
  - apply bool_decide_eq_false in Hin. split; [|split; [|done]].
    + rewrite elem_of_cons. tauto.
    + intros q Hq. rewrite elem_of_cons. tauto.
Qed.

(** X2: toggling the same strategy twice gives back the favourites one
    started from, as a set; on a list without repetition both toggles
    keep it free of repetition, and unstarring what was just starred
    gives back the very same list. *)
Theorem toggleFavorite_twice (o : Remote) (w : World) (p : string) :
  let w1 := final (exec o (toggleFavorite w p) w) in
  let w2 := final (exec o (toggleFavorite w1 p) w1) in
  (∀ q, q ∈ favorites w2 ↔ q ∈ favorites w)
  ∧ (NoDup (favorites w) → NoDup (favorites w1) ∧ NoDup (favorites w2))
  ∧ (p ∉ favorites w → favorites w2 = favorites w).
Proof.
  intros w1 w2.
  assert (favorites w1 = if bool_decide (p ∈ favorites w)
                         then filter (λ q, q ≠ p) (favorites w)
                         else p :: favorites w) as H1.
  { subst w1. unfold toggleFavorite. rewrite !exec_update. reflexivity. }
  assert (favorites w2 = if bool_decide (p ∈ favorites w1)
                         then filter (λ q, q ≠ p) (favorites w1)
                         else p :: favorites w1) as H2.
  { subst w2. unfold toggleFavorite. rewrite !exec_update. reflexivity. }
  clearbody w1 w2. rewrite H2, H1. clear H1 H2.
  destruct (bool_decide (p ∈ favorites w)) eqn:Hin.
  - apply bool_decide_eq_true in Hin.
    rewrite bool_decide_eq_false_2
      by (rewrite list_elem_of_filter; tauto).
    split; [|split; [|done]].
    + intros q. rewrite elem_of_cons, list_elem_of_filter.
      destruct (decide (q = p)) as [->|Hq]; tauto.
    + intros Hnd. split; [by apply NoDup_filter|].
      apply NoDup_cons. split; [|by apply NoDup_filter].
      rewrite list_elem_of_filter. tauto.
  - apply bool_decide_eq_false in Hin.
    rewrite bool_decide_eq_true_2 by apply list_elem_of_here.
    assert (filter (λ q, q ≠ p) (p :: favorites w) = favorites w) as ->.
    { rewrite filter_cons_False by tauto.
      apply filter_all. apply Forall_forall. intros q Hq ->. done. }
    split; [done|]. split; [|done].
    intros Hnd. split; [|done]. apply NoDup_cons. by split.
Qed.

Lemma toggleFavorite_twice_witness :
  favorites (final (exec serviceUp
     (toggleFavorite (final (exec serviceUp (toggleFavorite workspace "b.py") workspace))
        "b.py")
     (final (exec serviceUp (toggleFavorite workspace "b.py") workspace))))
  = ["a.py"].
Proof.
  destruct (toggleFavorite_twice serviceUp workspace "b.py") as (_ & _ & Hsame).
  apply Hsame. cbn. rewrite list_elem_of_singleton. discriminate.
Defined.

(** X3: the sidebar shows every strategy of the registry exactly once,
    starred ones in the first list and the others in the second, each in
    registry order; a favourite that the registry does not list appears
    in neither. *)
Theorem sidebar_lists_partition (w : World) :
  favoriteItems w ++ otherItems w ≡ₚ strategies (home w)
  ∧ (∀ st, st ∈ favoriteItems w ↔ st ∈ strategies (home w) ∧ path st ∈ favorites w)
  ∧ (∀ st, st ∈ otherItems w ↔ st ∈ strategies (home w) ∧ path st ∉ favorites w)
  ∧ favoriteItems w `sublist_of` strategies (home w)
  ∧ otherItems w `sublist_of` strategies (home w).
Proof.
  unfold favoriteItems, otherItems. split; [apply filter_app_complement|].
  split; [intros st; rewrite list_elem_of_filter; tauto|].
  split; [intros st; rewrite list_elem_of_filter; tauto|].
  split; apply sublist_filter.
Qed.

(** ** Paths and file names *)

Lemma append_cons (a : ascii) (s t : string) : String a s +:+ t = String a (s +:+ t).
Proof. reflexivity. Qed.

Lemma append_cons_assoc (pre post : string) (ch : ascii) :
  (pre +:+ String ch "") +:+ post = pre +:+ String ch post.
Proof. induction pre as [|a pre IH]; [done|]. by rewrite !append_cons, IH. Qed.

Lemma append_empty_r (s : string) : s +:+ "" = s.
Proof. induction s as [|x s IH]; [done|]. rewrite ?append_cons; simpl; by rewrite IH. Qed.

Lemma length_append (a b : string) :
  String.length (a +:+ b) = (String.length a + String.length b)%nat.
Proof. induction a as [|x a IH]; [done|]. rewrite append_cons; simpl; by rewrite IH. Qed.

Lemma substring_all (s : string) : substring 0 (String.length s) s = s.
Proof. induction s as [|x s IH]; [done|]. rewrite ?append_cons; simpl; by rewrite IH. Qed.

Lemma sliceFrom_cons (i : nat) (a : ascii) (s : string) :
  sliceFrom (S i) (String a s) = sliceFrom i s.
Proof. reflexivity. Qed.

Lemma sliceFrom_append (pre post : string) :
  sliceFrom (String.length pre) (pre +:+ post) = post.
Proof.
  induction pre as [|a pre IH].
  - unfold sliceFrom. simpl. rewrite Nat.sub_0_r. apply substring_all.
  - rewrite append_cons. change (String.length (String a pre)) with (S (String.length pre)).
    by rewrite sliceFrom_cons.
Qed.

Lemma sliceTo_append (pre post : string) :
  sliceTo (String.length pre) (pre +:+ post) = pre.
Proof.
  unfold sliceTo. induction pre as [|a pre IH].
  - by destruct post.
  - rewrite append_cons. simpl. by rewrite IH.
Qed.

Lemma lastIndexOf_Some (ch : ascii) (s : string) (i : nat) :
  lastIndexOf ch s = Some i →
  ∃ pre post, s = pre +:+ String ch post ∧ String.length pre = i
              ∧ lastIndexOf ch post = None.
Proof.
  revert i. induction s as [|a s IH]; intros i; simpl; [done|].
  destruct (lastIndexOf ch s) as [j|] eqn:E.
  - intros [= <-]. destruct (IH j eq_refl) as (pre & post & -> & <- & Hpost).
    by exists (String a pre), post.
  - destruct (Ascii.eqb a ch) eqn:Hch; [|done]. intros [= <-].
    apply Ascii.eqb_eq in Hch as ->. by exists "", s.
Qed.

Lemma lastIndexOf_append (ch : ascii) (a b : string) :
  lastIndexOf ch (a +:+ b)
  = match lastIndexOf ch b with
    | Some i => Some (String.length a + i)%nat
    | None => lastIndexOf ch a
    end.
Proof.
  induction a as [|x a IH].
  - change ("" +:+ b) with b. by destruct (lastIndexOf ch b).
  - rewrite append_cons. simpl. rewrite IH. by destruct (lastIndexOf ch b).
Qed.

Lemma endsWith_append (a suffix : string) : endsWith (a +:+ suffix) suffix = true.
Proof.
  unfold endsWith. rewrite length_append.
  apply andb_true_iff. split; [apply Nat.leb_le; lia|].
  replace (String.length a + String.length suffix - String.length suffix)%nat
    with (String.length a) by lia.
  rewrite sliceFrom_append. apply String.eqb_refl.
Qed.

(** The directory part [commitRename] computes:
    [oldPath.includes("/") ? oldPath.slice(0, oldPath.lastIndexOf("/") + 1) : ""]. *)
Lemma path_splits (p : string) :
  ∃ dir last,
    p = dir +:+ last
    ∧ lastIndexOf "/" last = None
    ∧ match lastIndexOf "/" p with
      | Some i => sliceTo (S i) p = dir ∧ sliceFrom (S i) p = last
                  ∧ ∃ pre, dir = pre +:+ "/"
      | None => dir = "" ∧ last = p
      end.
Proof.
  destruct (lastIndexOf "/" p) as [i|] eqn:E.
  - destruct (lastIndexOf_Some _ _ _ E) as (pre & post & -> & <- & Hpost).
    exists (pre +:+ "/"), post. rewrite append_cons_assoc.
    split; [done|]. split; [done|].
    rewrite <- (append_cons_assoc pre post "/").
    replace (S (String.length pre)) with (String.length (pre +:+ "/"))
      by (rewrite length_append; simpl; lia).
    rewrite sliceTo_append, sliceFrom_append. split; [done|]. split; [done|].
    by exists pre.
  - by exists "", p.
Qed.

Lemma lastIndexOf_noSlash (s : string) : lastIndexOf "/" s = None ↔ noSlash s.
Proof.
  split.
  - intros Hnone pre post ->. rewrite lastIndexOf_append in Hnone.
    change ("/" +:+ post) with (String "/" post) in Hnone. cbn [lastIndexOf] in Hnone.
    destruct (lastIndexOf "/" post); [done|]. done.
  - intros Hno. destruct (lastIndexOf "/" s) as [i|] eqn:E; [|done].
    destruct (lastIndexOf_Some _ _ _ E) as (pre & post & -> & _).
    by destruct (Hno pre post).
Qed.

Lemma lastIndexOf_segment (dir last : string) :
  noSlash last →
  lastIndexOf "/" (dir +:+ "/" +:+ last) = Some (String.length dir).
Proof.
  intros Hlast. apply lastIndexOf_noSlash in Hlast.
  rewrite lastIndexOf_append. change ("/" +:+ last) with (String "/" last).
  cbn [lastIndexOf]. rewrite Hlast. cbn. by rewrite Nat.add_0_r.
Qed.

Lemma slash_assoc (dir last : string) :
  dir +:+ "/" +:+ last = (dir +:+ "/") +:+ last.
Proof. symmetry. apply (append_cons_assoc dir last "/"). Qed.

Lemma sliceFrom_segment (dir last : string) :
  sliceFrom (S (String.length dir)) (dir +:+ "/" +:+ last) = last.
Proof.
  rewrite slash_assoc.
  replace (S (String.length dir)) with (String.length (dir +:+ "/"))
    by (rewrite length_append; simpl; lia).
  apply sliceFrom_append.
Qed.

Lemma sliceTo_segment (dir last : string) :
  sliceTo (S (String.length dir)) (dir +:+ "/" +:+ last) = dir +:+ "/".
Proof.
  rewrite slash_assoc.
  replace (S (String.length dir)) with (String.length (dir +:+ "/"))
    by (rewrite length_append; simpl; lia).
  apply sliceTo_append.
Qed.

(** Every path either holds no slash or is a directory, a slash and a
    last segment without slash. *)
Lemma path_segments (p : string) :
  noSlash p ∨ ∃ dir last, p = dir +:+ "/" +:+ last ∧ noSlash last.
Proof.
  destruct (lastIndexOf "/" p) as [i|] eqn:E.
  - right. destruct (lastIndexOf_Some _ _ _ E) as (pre & post & -> & _ & Hpost).
    exists pre, post. split; [done|]. by apply lastIndexOf_noSlash.
  - left. by apply lastIndexOf_noSlash.
Qed.

(** X4: [baseName] returns the last segment of a path: the path itself
    when it holds no slash, and what follows the last slash otherwise.
    The one exception is a path that ends with a slash, for which the
    whole path is returned.  Every path is of one of these forms, and the
    result is empty only for the empty path. *)
Theorem baseName_last_segment :
  (∀ p, noSlash p → baseName p = p)
  ∧ (∀ dir last, noSlash last → last ≠ "" → baseName (dir +:+ "/" +:+ last) = last)
  ∧ (∀ dir, baseName (dir +:+ "/") = dir +:+ "/")
  ∧ (∀ p, noSlash p ∨ ∃ dir last, p = dir +:+ "/" +:+ last ∧ noSlash last)
  ∧ (∀ p, baseName p = "" ↔ p = "").
Proof.
  assert (∀ dir last, noSlash last →
            baseName (dir +:+ "/" +:+ last)
            = if decide (last = "") then dir +:+ "/" +:+ last else last) as Hseg.
  { intros dir last Hlast. unfold baseName.
    rewrite (lastIndexOf_segment dir last Hlast). cbv zeta.
    by rewrite sliceFrom_segment. }
  split.
  { intros p Hp. apply lastIndexOf_noSlash in Hp. unfold baseName. by rewrite Hp. }
  split; [intros dir last Hlast Hne; by rewrite Hseg, decide_False|].
  split.
  { intros dir.
    assert (noSlash "") as Hempty by (by apply lastIndexOf_noSlash).
    pose proof (Hseg dir "" Hempty) as H. rewrite decide_True in H by done.
    exact H. }
  split; [apply path_segments|].
  intros p. split; [|by intros ->].
  destruct (path_segments p) as [Hp|(dir & last & -> & Hlast)].
  - apply lastIndexOf_noSlash in Hp. unfold baseName. by rewrite Hp.
  - rewrite (Hseg dir last Hlast). case_decide; [|by intros ->]. 
    intros E. apply (f_equal String.length) in E. rewrite length_append in E.
    revert E. rewrite length_append. simpl. lia.
Qed.

Lemma baseName_last_segment_witness :
  baseName "strategies/a.py" = "a.py" ∧ baseName "a.py" = "a.py"
  ∧ baseName "strategies/" = "strategies/".
Proof.
  destruct baseName_last_segment as (Hplain & Hseg & Hdir & _).
  split; [|split].
  - apply (Hseg "strategies" "a.py"); [|discriminate].
    apply lastIndexOf_noSlash. reflexivity.
  - apply Hplain. apply lastIndexOf_noSlash. reflexivity.
  - apply (Hdir "strategies").
Defined.

(** X5: the two labels of the task bar are never blank: without an
    active strategy they show their placeholders, otherwise the active id
    and its file name. *)
Theorem taskbar_labels (c : HomePage) :
  activeName c ≠ "" ∧ activeFileName c ≠ ""
  ∧ (truthyPath (selectedPath c) = None →
       activeName c = "Select strategy" ∧ activeFileName c = "no_strategy.py")
  ∧ (∀ id, truthyPath (selectedPath c) = Some id →
       activeName c = id ∧ activeFileName c = baseName id).
Proof.
  unfold activeName, activeFileName.
  destruct (truthyPath (selectedPath c)) as [id|] eqn:Hsel; simpl.
  - assert (id ≠ "") as Hne.
    { unfold truthyPath in Hsel. destruct (selectedPath c); [|done].
      case_decide; congruence. }
    split; [done|]. split.
    + intros Hb. apply Hne. unfold baseName in Hb.
      destruct (lastIndexOf "/" id); [|done]. cbv zeta in Hb. by case_decide.
    + split; [done|]. by intros ? [= <-].
  - split; [done|]. split; [done|]. split; [done|]. done.
Qed.

Lemma substring_split (n : nat) (s : string) :
  (n ≤ String.length s)%nat →
  s = substring 0 n s +:+ substring n (String.length s - n) s.
Proof.
  revert s. induction n as [|n IH]; intros s Hn.
  - rewrite Nat.sub_0_r, substring_all. by destruct s.
  - destruct s as [|a s]; [simpl in Hn; lia|].
    simpl in Hn. cbn [substring String.length]. rewrite append_cons.
    rewrite Nat.sub_succ. f_equal. apply IH. lia.
Qed.

Lemma endsWith_suffix (s suffix : string) :
  endsWith s suffix = true ↔ ∃ stem, s = stem +:+ suffix.
Proof.
  split.
  - unfold endsWith. intros H. apply andb_true_iff in H as [Hlen Heq].
    apply Nat.leb_le in Hlen. apply String.eqb_eq in Heq.
    remember (String.length s - String.length suffix)%nat as n eqn:Hn.
    exists (sliceTo n s). rewrite <- Heq.
    unfold sliceTo, sliceFrom. apply substring_split. lia.
  - intros [stem ->]. apply endsWith_append.
Qed.

(** X6: the path [commitRename] asks for is the typed name, with [.py]
    appended unless it ends with [.py] already, placed in the directory
    of the old path: in no directory when the old path holds no slash,
    and after everything up to and including its last slash otherwise. *)
Theorem renameTarget_same_directory :
  (∀ old stem, noSlash old → renameTarget old (stem +:+ ".py") = stem +:+ ".py")
  ∧ (∀ old clean, noSlash old → (∀ stem, clean ≠ stem +:+ ".py") →
       renameTarget old clean = clean +:+ ".py")
  ∧ (∀ dir last stem, noSlash last →
       renameTarget (dir +:+ "/" +:+ last) (stem +:+ ".py")
       = dir +:+ "/" +:+ stem +:+ ".py")
  ∧ (∀ dir last clean, noSlash last → (∀ stem, clean ≠ stem +:+ ".py") →
       renameTarget (dir +:+ "/" +:+ last) clean = dir +:+ "/" +:+ clean +:+ ".py").
Proof.
  assert (∀ clean, (∀ stem, clean ≠ stem +:+ ".py") → endsWith clean ".py" = false)
    as Hplain.
  { intros clean Hno. destruct (endsWith clean ".py") eqn:E; [|done].
    apply endsWith_suffix in E as [stem ->]. by destruct (Hno stem). }
  assert (∀ dir last clean, noSlash last →
            renameTarget (dir +:+ "/" +:+ last) clean
            = (dir +:+ "/")
              +:+ (if endsWith clean ".py" then clean else clean +:+ ".py")) as Hseg.
  { intros dir last clean Hlast. unfold renameTarget.
    rewrite (lastIndexOf_segment dir last Hlast). cbv zeta.
    by rewrite sliceTo_segment. }
  assert (∀ old clean, noSlash old →
            renameTarget old clean
            = if endsWith clean ".py" then clean else clean +:+ ".py") as Hflat.
  { intros old clean Hold. apply lastIndexOf_noSlash in Hold.
    unfold renameTarget. by rewrite Hold. }
  split; [intros old stem Hold; by rewrite Hflat, endsWith_append|].
  split; [intros old clean Hold Hno; by rewrite Hflat, Hplain|].
  split.
  - intros dir last stem Hlast. rewrite Hseg, endsWith_append by done.
    symmetry. apply slash_assoc.
  - intros dir last clean Hlast Hno. rewrite Hseg, Hplain by done.
    symmetry. apply slash_assoc.
Qed.

Lemma renameTarget_same_directory_witness :
  renameTarget "strategies/a.py" "b" = "strategies/b.py"
  ∧ renameTarget "strategies/a.py" "b.py" = "strategies/b.py"
  ∧ renameTarget "a.py" "b" = "b.py".
Proof.
  destruct renameTarget_same_directory as (_ & Hflat & Hpy & Hseg).
  split; [|split].
  - apply (Hseg "strategies" "a.py" "b").
    + apply lastIndexOf_noSlash. reflexivity.
    + intros stem E. apply (f_equal (λ t, endsWith t ".py")) in E.
      rewrite endsWith_append in E. discriminate E.
  - apply (Hpy "strategies" "a.py" "b"). apply lastIndexOf_noSlash. reflexivity.
  - apply (Hflat "a.py" "b").
    + apply lastIndexOf_noSlash. reflexivity.
    + intros stem E. apply (f_equal (λ t, endsWith t ".py")) in E.
      rewrite endsWith_append in E. discriminate E.
Defined.

(** ** What a handler leaves alone *)

Lemma updatesWithin_exec (R : World → World → Prop) `{!PreOrder R}
    (o : Remote) (p : Async) (w : World) :
  updatesWithin R p → R w (final (exec o p w)).
Proof.
  intros Hp. revert w. induction Hp as [|e|f k Hf _ IH|A req k _ IH]; intros w.
  - reflexivity.
  - reflexivity.
  - rewrite exec_update. etrans; [apply Hf|apply IH].
  - cbn [exec]. unfold after. cbn [final]. apply IH.
Qed.

Lemma updatesWithin_await (R : World → World → Prop) {A : Type} (req : Request A)
    (k : A → Async) :
  (∀ a, updatesWithin R (k a)) → updatesWithin R (await req k).
Proof. intros Hk. constructor. intros [a|e]; [apply Hk|constructor]. Qed.

Lemma updatesWithin_tryCatch (R : World → World → Prop) (p : Async)
    (h : string → Async) :
  updatesWithin R p → (∀ e, updatesWithin R (h e)) → updatesWithin R (tryCatch p h).
Proof.
  intros Hp Hh. induction Hp as [|e|f k Hf _ IH|A req k _ IH]; cbn [tryCatch].
  - constructor.
  - apply Hh.
  - by constructor.
  - by constructor.
Qed.

Lemma updatesWithin_andThen (R : World → World → Prop) (p q : Async) :
  updatesWithin R p → updatesWithin R q → updatesWithin R (andThen p q).
Proof.
  intros Hp Hq. induction Hp as [|e|f k Hf _ IH|A req k _ IH]; cbn [andThen].
  - done.
  - constructor.
  - by constructor.
  - by constructor.
Qed.

Lemma updatesWithin_finally (R : World → World → Prop) (p q : Async) :
  updatesWithin R p → updatesWithin R q → updatesWithin R (finally p q).
Proof.
  intros Hp Hq. induction Hp as [|e|f k Hf _ IH|A req k _ IH]; cbn [finally].
  - done.
  - apply updatesWithin_andThen; [done|constructor].
  - by constructor.
  - by constructor.
Qed.

Lemma sameWorkspace_preorder : PreOrder sameWorkspace.
Proof.
  split.
  - intros w. by split.
  - intros w1 w2 w3 [] [].
    split; try congruence. split; [intuition congruence|intuition congruence].
Qed.

Ltac within_updates :=
  repeat first
    [ apply within_return
    | apply within_throw
    | apply within_update; [intros ?; by split|]
    | apply updatesWithin_await; intros ?
    | apply updatesWithin_finally
    | apply updatesWithin_tryCatch; [|intros ?] ].

Lemma runBacktest_within (c : HomePage) : updatesWithin sameWorkspace (runBacktest c).
Proof.
  unfold runBacktest. destruct (truthyPath (selectedPath c)); within_updates.
Qed.

Lemma runOptimization_within (c : HomePage) :
  updatesWithin sameWorkspace (runOptimization c).
Proof.
  unfold runOptimization. destruct (truthyPath (selectedPath c)); [|within_updates].
  cbv zeta. case_decide; within_updates.
Qed.

Lemma startPaper_within (c : HomePage) (broker : Broker) :
  updatesWithin sameWorkspace (startPaper c broker).
Proof.
  unfold startPaper. destruct (truthyPath (selectedPath c)); within_updates.
Qed.

Lemma refreshPaperState_within (c : HomePage) :
  updatesWithin sameWorkspace (refreshPaperState c).
Proof.
  unfold refreshPaperState. destruct (truthyPath (selectedPath c)); [|within_updates].
  case_decide; within_updates.
Qed.

(** X7: running a backtest, a tuning run, a paper start or a paper
    refresh, whatever the remote service answers, never changes the view,
    the registry, the selection, the editor's text, the cached code or
    parameter specifications, nor anything the sidebar keeps (stars,
    stored stars, the row being renamed, alerts). *)
Theorem analysis_leaves_workspace (o : Remote) (c : HomePage) (w : World) :
  Forall (λ p, sameWorkspace w (final (exec o p w)))
    [runBacktest c; runOptimization c; startPaper c Local; startPaper c Alpaca;
     startAlpacaGuarded c; refreshPaperState c; refreshGuarded c].
Proof.
  pose proof sameWorkspace_preorder.
  repeat apply Forall_cons_2; [..|apply Forall_nil_2];
    apply updatesWithin_exec; try done.
  - apply runBacktest_within.
  - apply runOptimization_within.
  - apply startPaper_within.
  - apply startPaper_within.
  - unfold startAlpacaGuarded.
    apply updatesWithin_tryCatch; [apply startPaper_within|intros e; within_updates].
  - apply refreshPaperState_within.
  - unfold refreshGuarded.
    apply updatesWithin_tryCatch; [apply refreshPaperState_within|intros e; within_updates].
Qed.

(** ** Guards *)

(** X8: without an active strategy, saving, running a backtest or a
    tuning run, starting a paper session and refreshing one all return at
    once: no call is made and nothing changes. *)
Theorem nothing_without_active_strategy (o : Remote) (c : HomePage) (w : World) :
  truthyPath (selectedPath c) = None →
  Forall (λ p, exec o p w = {| final := w; calls := []; rejection := None |})
    [saveStrategy c; runBacktest c; runOptimization c; startPaper c Local;
     startPaper c Alpaca; startAlpacaGuarded c; refreshPaperState c; refreshGuarded c].
Proof.
  intros Hsel.
  unfold saveStrategy, runBacktest, runOptimization, startAlpacaGuarded, startPaper,
    refreshGuarded, refreshPaperState.
  rewrite Hsel. repeat apply Forall_cons_2; [..|apply Forall_nil_2]; reflexivity.
Qed.

Lemma nothing_without_active_strategy_witness :
  exec serviceUp (saveStrategy initialHome) workspace
  = {| final := workspace; calls := []; rejection := None |}.
Proof.
  pose proof (nothing_without_active_strategy serviceUp initialHome workspace eq_refl) as H.
  apply Forall_cons_1 in H as [H _]. exact H.
Defined.

(** ** Registry reload *)

(** X9: after a registry reload that succeeds, run by the handler of
    the current render, the selection is valid for the new registry: it
    is empty exactly when the registry is, otherwise it names a listed
    strategy; an active strategy that is still listed stays active, and
    in every other case the first listed strategy becomes active. *)
Theorem reload_selects_listed (o : Remote) (w : World) (files : list Strategy) :
  o _ GetStrategies = Fulfilled files →
  let w' := final (exec o (reloadStrategies (home w)) w) in
  strategies (home w') = files
  ∧ (files = [] ↔ selectedPath (home w') = None)
  ∧ (∀ id, selectedPath (home w') = Some id → id ∈ registryIds files)
  ∧ (∀ id, truthyPath (selectedPath (home w)) = Some id → id ∈ registryIds files →
       selectedPath (home w') = Some id)
  ∧ ((∀ id, truthyPath (selectedPath (home w)) = Some id → id ∉ registryIds files) →
       selectedPath (home w') = path <$> head files).
Proof.
  intros Ho w'. subst w'. unfold reloadStrategies.
  rewrite (exec_await_ok o _ _ w files Ho), exec_update.
  unfold after. cbn [final].
  destruct files as [|f fs].
  { cbn. split; [done|]. split; [done|]. split; [done|]. split; [|done].
    intros id _ Hin. by apply elem_of_nil in Hin. }
  assert (path f ∈ registryIds (f :: fs)) as Hfirst by apply list_elem_of_here.
  destruct (truthyPath (selectedPath (home w))) as [sp|] eqn:Hsel.
  - destruct (existsb (λ f0, bool_decide (path f0 = sp)) (f :: fs)) eqn:Hex.
    + assert (sp ∈ registryIds (f :: fs)) as Hin.
      { apply existsb_exists in Hex as (f0 & Hin & Hf).
        apply bool_decide_eq_true in Hf. apply list_elem_of_fmap.
        exists f0. split; [done|]. by apply list_elem_of_In. }
      apply truthyPath_Some in Hsel as [Hsp _].
      cbn [exec final]. rewrite home_onHome.
      change (selectedPath (setStrategies (f :: fs) (home w))) with (selectedPath (home w)).
      change (strategies (setStrategies (f :: fs) (home w))) with (f :: fs).
      rewrite Hsp. split; [done|]. split; [done|].
      split; [by intros ? [= <-]|]. split; [by intros ? [= <-] _|].
      intros Hno. by destruct (Hno sp eq_refl).
    + assert (sp ∉ registryIds (f :: fs)) as Hout.
      { intros Hin. apply not_true_iff_false in Hex. apply Hex. apply existsb_exists.
        apply list_elem_of_fmap in Hin as (f0 & -> & Hin).
        exists f0. split; [by apply list_elem_of_In|]. by apply bool_decide_eq_true. }
      cbn. split; [done|]. split; [done|]. split; [by intros ? [= <-]|].
      split; [|done]. intros id [= <-] Hin. done.
  - cbn. split; [done|]. split; [done|]. split; [by intros ? [= <-]|]. done.
Qed.

Lemma reload_selects_listed_witness :
  selectedPath (home (final (exec serviceUp (reloadStrategies (home workspace)) workspace)))
  = Some "a.py".
Proof.
  destruct (reload_selects_listed serviceUp workspace
              [strategyFile "a.py"; strategyFile "b.py"] eq_refl) as (_ & _ & _ & H & _).
  apply H; [reflexivity|]. apply list_elem_of_here.
Defined.

(** ** Backtest *)

(** X10: a backtest run that succeeds shows its result and caches it
    under the strategy that was active when the run was asked for,
    leaving the cached results of the other strategies alone.  The result
    is shown whatever is selected when the answer arrives. *)
Theorem runBacktest_caches_result (o : Remote) (c : HomePage) (w : World)
    (id : string) (backtest : BacktestResult) :
  truthyPath (selectedPath c) = Some id →
  o _ (PostBacktest id None) = Fulfilled backtest →
  let r := exec o (runBacktest c) w in
  calls r = [call (PostBacktest id None)]
  ∧ rejection r = None
  ∧ result (home (final r)) = Some backtest
  ∧ backtestByStrategy (home (final r)) !! id = Some backtest
  ∧ (∀ other, other ≠ id →
       backtestByStrategy (home (final r)) !! other
       = backtestByStrategy (home w) !! other).
Proof.
  intros Hsel Ho r. subst r. unfold runBacktest. rewrite Hsel.
  rewrite (exec_await_ok o _ _ w backtest Ho), !exec_update.
  unfold after. cbn. rewrite lookup_insert_eq.
  repeat (split; [done|]). intros other Hne. by rewrite lookup_insert_ne.
Qed.

Lemma runBacktest_caches_result_witness :
  backtestByStrategy
    (home (final (exec serviceUp (runBacktest workspaceHome)
                    (onHome (setSelectedPath (Some "b.py")) workspace)))) !! "a.py"
  = Some sampleBacktest.
Proof.
  destruct (runBacktest_caches_result serviceUp workspaceHome
              (onHome (setSelectedPath (Some "b.py")) workspace) "a.py" sampleBacktest
              eq_refl eq_refl) as (_ & _ & _ & H & _).
  exact H.
Defined.

(** ** Paper session *)

(** X11: starting a paper session first clears the displayed error and
    state.  When the service accepts, the new session id is displayed and
    the entry of the originating strategy is replaced by a fresh one for
    that session; the other entries are untouched.  When the service
    refuses, the start rejects with the error, and the displayed state
    stays cleared while the displayed session id and every cache entry
    are as before. *)
Theorem startPaper_outcomes (o : Remote) (c : HomePage) (w : World)
    (id : string) (broker : Broker) :
  truthyPath (selectedPath c) = Some id →
  let r := exec o (startPaper c broker) w in
  calls r = [call (PostPaperStart id broker)]
  ∧ paperError (home (final r)) = ""
  ∧ paperState (home (final r)) = None
  ∧ (∀ sid, o _ (PostPaperStart id broker) = Fulfilled sid →
       rejection r = None
       ∧ paperSession (home (final r)) = sid
       ∧ paperByStrategy (home (final r)) !! id
         = Some {| sessionId := sid; paper_error := ""; state := None |}
       ∧ ∀ other, other ≠ id →
           paperByStrategy (home (final r)) !! other
           = paperByStrategy (home w) !! other)
  ∧ (∀ e, o _ (PostPaperStart id broker) = Rejected e →
       rejection r = Some e
       ∧ paperSession (home (final r)) = paperSession (home w)
       ∧ paperByStrategy (home (final r)) = paperByStrategy (home w)).
Proof.
  intros Hsel r. subst r. unfold startPaper. rewrite Hsel. rewrite !exec_update.
  destruct (o _ (PostPaperStart id broker)) as [sid|e] eqn:Ho.
  - rewrite (exec_await_ok o _ _ _ sid Ho), !exec_update. unfold after. cbn.
    split; [done|]. split; [done|]. split; [done|]. split; [|by intros ? [=]].
    intros ? [= <-]. rewrite lookup_insert_eq.
    split; [done|]. split; [done|]. split; [done|].
    intros other Hne. by rewrite lookup_insert_ne.
  - rewrite (exec_await_failed o _ _ _ e Ho). cbn.
    split; [done|]. split; [done|]. split; [done|]. split; [by intros ? [=]|].
    by intros ? [= <-].
Qed.

Lemma startPaper_outcomes_witness :
  let r := exec (remoteDown "down") (startPaper workspaceHome Local) workspace in
  paperState (home (final r)) = None
  ∧ paperByStrategy (home (final r)) !! "a.py" = Some samplePaper.
Proof.
  intros r.
  destruct (startPaper_outcomes (remoteDown "down") workspaceHome workspace "a.py" Local
              eq_refl) as (_ & _ & Hstate & _ & Hfail).
  destruct (Hfail "down" eq_refl) as (_ & _ & Hcache).
  split; [exact Hstate|]. subst r. rewrite Hcache. reflexivity.
Defined.

(** X12: a paper refresh with a displayed session asks for exactly
    that session, never rejects, and ends with the loading flag down
    whatever the answer.  A successful answer becomes the displayed state
    with an empty error and replaces the entry of the originating
    strategy, leaving the other entries and the displayed session id
    alone.  Without a displayed session the refresh does nothing. *)
Theorem refreshPaperState_outcomes (o : Remote) (c : HomePage) (w : World)
    (id : string) :
  truthyPath (selectedPath c) = Some id →
  let r := exec o (refreshPaperState c) w in
  (paperSession c = "" → r = {| final := w; calls := []; rejection := None |})
  ∧ (paperSession c ≠ "" →
       calls r = [call (GetPaperState (paperSession c))]
       ∧ rejection r = None
       ∧ paperLoading (home (final r)) = false
       ∧ paperSession (home (final r)) = paperSession (home w)
       ∧ (∀ other, other ≠ id →
            paperByStrategy (home (final r)) !! other
            = paperByStrategy (home w) !! other)
       ∧ ∀ st, o _ (GetPaperState (paperSession c)) = Fulfilled st →
           paperState (home (final r)) = Some st
           ∧ paperError (home (final r)) = ""
           ∧ paperByStrategy (home (final r)) !! id
             = Some {| sessionId := paperSession c; paper_error := "";
                       state := Some st |}).
Proof.
  intros Hsel r. subst r. unfold refreshPaperState. rewrite Hsel.
  split; [intros Hsid; by rewrite decide_True|].
  intros Hsid. rewrite decide_False by done. rewrite exec_update.
  cbn [finally tryCatch await exec]. unfold after. cbn [final calls rejection].
  destruct (o _ (GetPaperState (paperSession c))) as [st|e] eqn:Ho; cbn.
  - split; [done|]. split; [done|]. split; [done|]. split; [done|].
    split; [intros other Hne; by rewrite lookup_insert_ne|].
    intros ? [= <-]. by rewrite lookup_insert_eq.
  - split; [done|]. split; [done|]. split; [done|]. split; [done|].
    split; [intros other Hne; by rewrite lookup_insert_ne|].
    by intros ? [=].
Qed.

Lemma refreshPaperState_outcomes_witness :
  paperLoading (home (final (exec (remoteDown "down") (refreshPaperState workspaceHome)
                               (onHome (setPaperLoading true) workspace)))) = false.
Proof.
  destruct (refreshPaperState_outcomes (remoteDown "down") workspaceHome
              (onHome (setPaperLoading true) workspace) "a.py" eq_refl) as [_ H].
  destruct H as (_ & _ & H & _); [discriminate|]. exact H.
Defined.

(** ** Tuning run *)



(** ** Save *)

Lemma last_filter_None {A : Type} (P : A → Prop) `{!∀ x, Decision (P x)} (l : list A) :
  last (filter P l) = None ↔ ∀ x, x ∈ l → ¬ P x.
Proof.
  rewrite last_None. split.
  - intros Hnil x Hx HP.
    assert (x ∈ filter P l) as Hin by (by apply list_elem_of_filter).
    rewrite Hnil in Hin. by apply elem_of_nil in Hin.
  - intros Hno. destruct (filter P l) as [|x l'] eqn:E; [done|].
    assert (x ∈ filter P l) as Hin by (rewrite E; apply list_elem_of_here).
    apply list_elem_of_filter in Hin as [HP Hin]. by destruct (Hno x Hin).
Qed.

(** X14: the ranges computed from a parameter specification hold one
    range for every declared name other than [__proto__], and nothing
    else: the assignment [acc[p.name] = ...] adds no key for that name.
    They are empty exactly when no other name is declared.  When no name
    is declared twice, the range of each such parameter is made of its
    own suggested bounds and type. *)
Theorem paramRanges_declared (specs : list StrategyParamSpec) :
  (∀ n, is_Some (paramRanges specs !! n)
        ↔ n ∈ param_name <$> specs ∧ n ≠ "__proto__")
  ∧ (paramRanges specs = ∅ ↔ ∀ p, p ∈ specs → param_name p = "__proto__")
  ∧ (NoDup (param_name <$> specs) →
       ∀ p, p ∈ specs → param_name p ≠ "__proto__" →
            paramRanges specs !! param_name p = Some (rangeOf p)).
Proof.
  assert (∀ n, is_Some (paramRanges specs !! n)
               ↔ n ∈ param_name <$> specs ∧ n ≠ "__proto__") as Hdom.
  { intros n. rewrite paramRanges_lookup, list_elem_of_fmap.
    rewrite <- not_eq_None_Some, fmap_None, last_filter_None. split.
    - intros Hno.
      destruct (decide (Exists (λ p, param_name p = n ∧ param_name p ≠ "__proto__") specs))
        as [Hex|Hnex].
      + apply Exists_exists in Hex as (p & Hin & Hp & Hproto).
        split; [by exists p|]. by rewrite <- Hp.
      + exfalso. apply Hno. intros p Hin Hp. apply Hnex, Exists_exists. by exists p.
    - intros [(p & -> & Hin) Hproto] Hno. by apply (Hno p). }
  split; [exact Hdom|]. split.
  - split.
    + intros Hempty p Hin.
      destruct (decide (param_name p = "__proto__")) as [|Hne]; [done|]. exfalso.
      assert (is_Some (paramRanges specs !! param_name p)) as [? Hs].
      { apply Hdom. split; [|done]. apply list_elem_of_fmap. by exists p. }
      by rewrite Hempty, lookup_empty in Hs.
    + intros Hall. apply map_eq. intros n. rewrite lookup_empty.
      apply eq_None_not_Some. intros Hsome. apply Hdom in Hsome as [Hin Hne].
      apply list_elem_of_fmap in Hin as (p & -> & Hin). by apply Hne, Hall.
  - clear Hdom. intros Hnd p Hin Hproto. rewrite paramRanges_lookup.
    induction specs as [|q specs IH]; [by apply elem_of_nil in Hin|].
    rewrite fmap_cons in Hnd. apply NoDup_cons in Hnd as [Hq Hnd].
    rewrite filter_cons. apply elem_of_cons in Hin as [->|Hin].
    + rewrite decide_True by done.
      assert (filter (λ p0, param_name p0 = param_name q ∧ param_name p0 ≠ "__proto__")
                specs = []) as ->; [|done].
      apply last_None, last_filter_None. intros x Hx [Hname _]. apply Hq.
      apply list_elem_of_fmap. by exists x.
    + rewrite decide_False.
      * by apply IH.
      * intros [Hname _]. apply Hq. apply list_elem_of_fmap. by exists p.
Qed.

Lemma paramRanges_declared_witness :
  paramRanges [fastSpec] !! "fast" = Some fastRange.
Proof.
  destruct (paramRanges_declared [fastSpec]) as (_ & _ & H).
  apply (H ltac:(apply NoDup_singleton) fastSpec); [apply list_elem_of_here|discriminate].
Defined.

(** X15: a save whose write and parameter fetch succeed writes the
    saved text through to the code cache and the fetched specification to
    the specification cache of the originating strategy, displays that
    specification and the ranges computed from it, and leaves the
    editor's text alone, whether or not the final registry reload
    succeeds.  The text written is the one of the render that started the
    save. *)
Theorem save_writes_through (o : Remote) (c : HomePage) (w : World)
    (id : string) (meta : ParamsResponse) :
  truthyPath (selectedPath c) = Some id →
  o _ (PostSave id (code c)) = Fulfilled tt →
  o _ (GetStrategyParams id) = Fulfilled meta →
  let r := exec o (saveStrategy c) w in
  let specs := default [] (params meta) in
  codeByStrategy (home (final r)) !! id = Some (code c)
  ∧ paramSpecsByStrategy (home (final r)) !! id = Some specs
  ∧ mlParamSpecs (home (final r)) = specs
  ∧ mlRanges (home (final r)) = paramRanges specs
  ∧ code (home (final r)) = code (home w)
  ∧ (∀ files, o _ GetStrategies = Fulfilled files → rejection r = None)
  ∧ (∀ e, o _ GetStrategies = Rejected e → rejection r = Some e).
Proof.
  intros Hsel Hpost Hget r specs.
  assert (∃ w1,
    r = after (call (PostSave id (code c)))
          (after (call (GetStrategyParams id)) (exec o (reloadStrategies c) w1))
    ∧ codeByStrategy (home w1) = <[id := code c]> (codeByStrategy (home w))
    ∧ paramSpecsByStrategy (home w1) = <[id := specs]> (paramSpecsByStrategy (home w))
    ∧ mlParamSpecs (home w1) = specs
    ∧ mlRanges (home w1) = paramRanges specs
    ∧ code (home w1) = code (home w))
    as (w1 & Hr & Hc1 & Hs1 & Hm1 & Hr1 & Ht1).
  { subst r. unfold saveStrategy. rewrite Hsel.
    rewrite (exec_await_ok o _ _ w tt Hpost), exec_update.
    rewrite (exec_await_ok o _ _ _ meta Hget), !exec_update.
    eexists. split; [reflexivity|]. by repeat split. }
  clearbody r. subst r. unfold after. cbn [final calls rejection].
  destruct (o _ GetStrategies) as [files|e] eqn:Hreg.
  - destruct (reloadStrategies_run o c w1 files Hreg) as (sel & -> & _).
    cbn [final rejection]. rewrite !home_onHome.
    cbn. rewrite Hc1, Hs1, Hm1, Hr1, Ht1, !lookup_insert_eq.
    split; [done|]. split; [done|]. split; [done|]. split; [done|]. split; [done|].
    split; [done|]. by intros ? [=].
  - rewrite (reloadStrategies_failed o c w1 e Hreg). cbn [final rejection].
    rewrite Hc1, Hs1, Hm1, Hr1, Ht1, !lookup_insert_eq.
    split; [done|]. split; [done|]. split; [done|]. split; [done|]. split; [done|].
    split; [by intros ? [=]|]. by intros ? [= <-].
Qed.

Lemma save_writes_through_witness :
  codeByStrategy
    (home (final (exec serviceUp (saveStrategy (setCode "X=2" workspaceHome)) workspace)))
    !! "a.py"
  = Some "X=2".
Proof.
  destruct (save_writes_through serviceUp (setCode "X=2" workspaceHome) workspace "a.py"
              {| params := Some [fastSpec] |} eq_refl eq_refl eq_refl) as [H _].
  exact H.
Defined.

(** X16: a save whose write succeeds but whose parameter fetch fails
    rejects with the error of the fetch after two calls; the saved text
    is already in the code cache, while the cached backtest, the tuning
    entry, the specification cache and the registry are as before: the
    invalidation of the save has not happened. *)
Theorem save_interrupted_by_parameter_failure (o : Remote) (c : HomePage) (w : World)
    (id e : string) :
  truthyPath (selectedPath c) = Some id →
  o _ (PostSave id (code c)) = Fulfilled tt →
  o _ (GetStrategyParams id) = Rejected e →
  let r := exec o (saveStrategy c) w in
  calls r = [call (PostSave id (code c)); call (GetStrategyParams id)]
  ∧ rejection r = Some e
  ∧ codeByStrategy (home (final r)) = <[id := code c]> (codeByStrategy (home w))
  ∧ backtestByStrategy (home (final r)) = backtestByStrategy (home w)
  ∧ mlByStrategy (home (final r)) = mlByStrategy (home w)
  ∧ paramSpecsByStrategy (home (final r)) = paramSpecsByStrategy (home w)
  ∧ mlRanges (home (final r)) = mlRanges (home w)
  ∧ strategies (home (final r)) = strategies (home w).
Proof.
  intros Hsel Hpost Hget r. subst r. unfold saveStrategy. rewrite Hsel.
  rewrite (exec_await_ok o _ _ w tt Hpost), exec_update.
  rewrite (exec_await_failed o _ _ _ e Hget). unfold after. cbn.
  by repeat split.
Qed.

Lemma save_interrupted_by_parameter_failure_witness :
  let flaky : Remote := λ A req,
    match req in Request T return settled T with
    | GetStrategyParams _ => Rejected "params down"
    | other => serviceUp _ other
    end in
  let r := exec flaky (saveStrategy workspaceHome) workspace in
  rejection r = Some "params down"
  ∧ backtestByStrategy (home (final r)) !! "a.py" = Some sampleBacktest.
Proof.
  intros flaky r.
  destruct (save_interrupted_by_parameter_failure flaky workspaceHome workspace
              "a.py" "params down" eq_refl eq_refl eq_refl)
    as (_ & Hrej & _ & Hback & _).
  split; [exact Hrej|]. subst r. rewrite Hback. reflexivity.
Defined.

(** ** Renaming from the sidebar *)

Lemma reloadStrategies_within (R : World → World → Prop) (c : HomePage) :
  (∀ v w, R w (onHome (setStrategies v) w)) →
  (∀ v w, R w (onHome (setSelectedPath v) w)) →
  updatesWithin R (reloadStrategies c).
Proof.
  intros Hreg Hsel. unfold reloadStrategies. apply updatesWithin_await. intros files.
  apply within_update; [intros; apply Hreg|].
  destruct files as [|f fs]; [apply within_update; [intros; apply Hsel|constructor]|].
  destruct (truthyPath (selectedPath c)) as [sp|].
  - destruct (existsb _ _); [constructor|].
    apply within_update; [intros; apply Hsel|constructor].
  - apply within_update; [intros; apply Hsel|constructor].
Qed.

Lemma sameEditing_preorder : PreOrder sameEditing.
Proof.
  split.
  - by intros w.
  - intros w1 w2 w3 [] []. split; congruence.
Qed.

Lemma renameFlow_within (c : World) (oldId newId : string) :
  updatesWithin sameEditing (renameFlow c oldId newId).
Proof.
  unfold renameFlow, renameStrategy.
  apply updatesWithin_tryCatch; [|intros e; by repeat constructor].
  apply updatesWithin_andThen; [|apply updatesWithin_andThen].
  - apply updatesWithin_await. intros _.
    repeat (apply within_update; [by intros|]).
    by apply reloadStrategies_within.
  - case_decide; by repeat constructor.
  - destruct (bool_decide _); by repeat constructor.
Qed.

(** X17: committing a rename always closes the row's editor and never
    rejects.  Nothing else happens when no row is being edited, when the
    typed name is blank, or when it is the file's current name; otherwise
    the first call asks the service to rename the file to the typed name,
    completed with [.py], in the directory of the old path. *)
Theorem commitRename_guards (o : Remote) (c w : World) :
  let r := exec o (commitRename c) w in
  rejection r = None
  ∧ (truthyPath (editingPath c) = None →
       r = {| final := w; calls := []; rejection := None |})
  ∧ (∀ old, truthyPath (editingPath c) = Some old →
       editingPath (final r) = None
       ∧ (trim (editingName c) = "" ∨ trim (editingName c) = baseName old →
            r = {| final := withEditingPath None w; calls := []; rejection := None |})
       ∧ (trim (editingName c) ≠ "" → trim (editingName c) ≠ baseName old →
            ∃ rest, calls r
                    = call (PostRename old (renameTarget old (trim (editingName c))))
                      :: rest)).
Proof.
  intros r. subst r. unfold commitRename.
  destruct (truthyPath (editingPath c)) as [old|]; [|by repeat split].
  cbv zeta. rewrite exec_update.
  destruct (bool_decide (trim (editingName c) = "" ∨ trim (editingName c) = baseName old))
    eqn:Hguard.
  - split; [done|]. split; [done|]. intros ? [= <-].
    split; [done|]. split; [done|].
    apply bool_decide_eq_true in Hguard. intros H1 H2. by destruct Hguard.
  - apply bool_decide_eq_false in Hguard.
    split; [apply renameFlow_never_rejects|]. split; [done|]. intros ? [= <-].
    split; [|split].
    + pose proof sameEditing_preorder.
      destruct (updatesWithin_exec sameEditing o
                  (renameFlow c old (renameTarget old (trim (editingName c))))
                  (withEditingPath None w)) as [Hpath _];
        [apply renameFlow_within|]. by rewrite Hpath.
    + intros Hor. by destruct Hguard.
    + intros _ _. unfold renameFlow, renameStrategy, await.
      cbn [andThen tryCatch exec]. unfold after. cbn [calls]. by eexists.
Qed.

Lemma commitRename_guards_witness :
  exec serviceUp (commitRename (withEditingName " a.py " (withEditingPath (Some "a.py") workspace)))
    workspace
  = {| final := withEditingPath None workspace; calls := []; rejection := None |}.
Proof.
  destruct (commitRename_guards serviceUp
              (withEditingName " a.py " (withEditingPath (Some "a.py") workspace)) workspace)
    as (_ & _ & H).
  destruct (H "a.py" eq_refl) as (_ & Hsame & _).
  apply Hsame. right. reflexivity.
Defined.

Lemma sameBuckets_preorder : PreOrder sameBuckets.
Proof.
  split.
  - intros w. by split.
  - intros w1 w2 w3 [] []. split; congruence.
Qed.

Lemma renameTail_within (c : World) (oldId newId : string) :
  updatesWithin sameBuckets (renameTail c oldId newId).
Proof.
  unfold renameTail.
  apply updatesWithin_tryCatch; [|intros e; by repeat constructor].
  apply updatesWithin_andThen; [|apply updatesWithin_andThen].
  - apply reloadStrategies_within; intros; by split.
  - case_decide; by repeat constructor.
  - destruct (bool_decide _); by repeat constructor.
Qed.

Lemma renameFlow_buckets (o : Remote) (c w : World) (oldId newId : string) :
  o _ (PostRename oldId newId) = Fulfilled tt →
  sameBuckets (bucketsRenamed oldId newId w) (final (exec o (renameFlow c oldId newId) w)).
Proof.
  intros Hpost. rewrite (renameFlow_accepted o c w oldId newId Hpost).
  unfold after. cbn [final].
  pose proof sameBuckets_preorder. apply updatesWithin_exec; [done|].
  apply renameTail_within.
Qed.

(** X18: retyping a file's name without its [.py] extension passes the
    guard of [commitRename], since the typed name differs from the
    current one, and asks the service to rename the file onto itself.
    When the service accepts, the entries of the file are dropped from
    the code, backtest, tuning and paper buckets. *)
Theorem retyped_stem_renames_onto_itself (o : Remote) (c w : World) (dir stem : string) :
  let old := dir +:+ stem +:+ ".py" in
  editingPath c = Some old →
  trim (editingName c) = stem →
  stem ≠ "" →
  lastIndexOf "/" stem = None →
  dir = "" ∨ (∃ d, dir = d +:+ "/") →
  endsWith stem ".py" = false →
  let r := exec o (commitRename c) w in
  (∃ rest, calls r = call (PostRename old old) :: rest)
  ∧ (o _ (PostRename old old) = Fulfilled tt →
     codeByStrategy (home (final r)) !! old = None
     ∧ backtestByStrategy (home (final r)) !! old = None
     ∧ mlByStrategy (home (final r)) !! old = None
     ∧ paperByStrategy (home (final r)) !! old = None).
Proof.
  intros old Hedit Htrim Hstem Hslash Hdir Hext r.
  assert (old ≠ "") as Hold.
  { intros E. apply (f_equal String.length) in E. subst old.
    rewrite !length_append in E. simpl in E. lia. }
  assert (lastIndexOf "/" (stem +:+ ".py") = None) as Hname.
  { rewrite lastIndexOf_append. simpl. exact Hslash. }
  assert (stem +:+ ".py" ≠ "") as Hfile.
  { intros E. apply (f_equal String.length) in E.
    rewrite length_append in E. simpl in E. lia. }
  assert (baseName old = stem +:+ ".py" ∧ renameTarget old stem = old) as [Hbase Htarget].
  { unfold baseName, renameTarget. rewrite Hext. subst old.
    rewrite lastIndexOf_append, Hname.
    destruct Hdir as [->|[d ->]].
    - by simpl.
    - rewrite lastIndexOf_append. simpl.
      replace (S (String.length d + 0)) with (String.length (d +:+ "/"))
        by (rewrite length_append; simpl; lia).
      rewrite sliceFrom_append, sliceTo_append. by rewrite decide_False. }
  assert (stem ≠ baseName old) as Hdiff.
  { rewrite Hbase. intros E. apply (f_equal String.length) in E.
    rewrite length_append in E. simpl in E. lia. }
  assert (commitRename c = Update (withEditingPath None) (renameFlow c old old)) as Hrun.
  { unfold commitRename. rewrite Hedit. unfold truthyPath. rewrite decide_False by done.
    cbv zeta. rewrite Htrim, Htarget.
    rewrite bool_decide_eq_false_2; [done|]. intros [?|?]; done. }
  clearbody old. subst r. rewrite Hrun, exec_update. split.
  - unfold renameFlow, renameStrategy, await.
    cbn [andThen tryCatch exec]. unfold after. cbn [calls]. by eexists.
  - intros Hpost.
    destruct (renameFlow_buckets o c (withEditingPath None w) old old Hpost)
      as [-> _ -> -> ->].
    cbn. rewrite !renameKey_same, !lookup_delete_eq. done.
Qed.

Lemma retyped_stem_renames_onto_itself_witness :
  codeByStrategy (home (final (exec serviceUp (commitRename renamingSelf) renamingSelf)))
    !! "a.py" = None.
Proof.
  pose proof (retyped_stem_renames_onto_itself serviceUp renamingSelf renamingSelf "" "a"
                eq_refl eq_refl ltac:(discriminate) eq_refl (or_introl eq_refl) eq_refl)
    as [_ H].
  exact (proj1 (H eq_refl)).
Defined.

(** X19: when the service accepts a rename but the registry reload that
    follows fails, the sidebar shows the error in an alert and the flow
    stops half way: the five buckets already hold their entries under the
    new id, while the registry, the selection, the stars and their stored
    copy still name the old one. *)
Theorem rename_with_failed_reload (o : Remote) (w : World) (oldId newId e : string) :
  o _ (PostRename oldId newId) = Fulfilled tt →
  o _ GetStrategies = Rejected e →
  let r := exec o (renameFlow w oldId newId) w in
  calls r = [call (PostRename oldId newId); call GetStrategies]
  ∧ rejection r = None
  ∧ final r = withAlerts (λ l, l ++ [errText e]) (bucketsRenamed oldId newId w)
  ∧ codeByStrategy (home (final r)) = renameKey oldId newId (codeByStrategy (home w))
  ∧ paperByStrategy (home (final r)) = renameKey oldId newId (paperByStrategy (home w))
  ∧ strategies (home (final r)) = strategies (home w)
  ∧ selectedPath (home (final r)) = selectedPath (home w)
  ∧ favorites (final r) = favorites w
  ∧ localStorage (final r) = localStorage w
  ∧ alerts (final r) = alerts w ++ [errText e].
Proof.
  intros Hpost Hget r. subst r.
  rewrite (renameFlow_accepted o w w oldId newId Hpost).
  unfold renameTail. rewrite exec_tryCatch, exec_andThen.
  rewrite (reloadStrategies_failed o _ _ e Hget). by cbn.
Qed.

Lemma rename_with_failed_reload_witness :
  let flaky : Remote := λ A req,
    match req in Request T return settled T with
    | GetStrategies => Rejected "registry down"
    | other => serviceUp _ other
    end in
  let r := exec flaky (renameFlow workspace "a.py" "c.py") workspace in
  codeByStrategy (home (final r)) !! "c.py" = Some "X=1"
  ∧ favorites (final r) = ["a.py"]
  ∧ selectedPath (home (final r)) = Some "a.py".
Proof.
  intros flaky r.
  destruct (rename_with_failed_reload flaky workspace "a.py" "c.py" "registry down"
              eq_refl eq_refl) as (_ & _ & _ & Hcode & _ & _ & Hsel & Hfav & _).
  subst r. rewrite Hcode, Hsel, Hfav. by vm_compute.
Defined.

(** X20: when the rename and the reload succeed, the specification
    bucket moves with the other four; a renamed strategy that was the
    active one of the sidebar's render becomes active under its new id;
    the stored stars are rewritten exactly when the old id was starred;
    and no alert is shown. *)
Theorem rename_follows_selection (o : Remote) (w : World) (oldId newId : string)
    (files : list Strategy) :
  o _ (PostRename oldId newId) = Fulfilled tt →
  o _ GetStrategies = Fulfilled files →
  let r := exec o (renameFlow w oldId newId) w in
  calls r = [call (PostRename oldId newId); call GetStrategies]
  ∧ paramSpecsByStrategy (home (final r))
    = renameKey oldId newId (paramSpecsByStrategy (home w))
  ∧ strategies (home (final r)) = files
  ∧ (selectedPath (home w) = Some oldId → selectedPath (home (final r)) = Some newId)
  ∧ (oldId ∈ favorites w → localStorage (final r) = Some (favorites (final r)))
  ∧ (oldId ∉ favorites w →
       localStorage (final r) = localStorage w ∧ favorites (final r) = favorites w)
  ∧ alerts (final r) = alerts w.
Proof.
  intros Hpost Hget r. subst r.
  rewrite (renameFlow_accepted o w w oldId newId Hpost).
  unfold renameTail. rewrite exec_tryCatch, exec_andThen.
  destruct (reloadStrategies_run o (home w) (bucketsRenamed oldId newId w) files Hget)
    as (sel & -> & _).
  cbn [rejection]. unfold joinRuns, after. cbn [final calls rejection].
  destruct (decide (selectedPath (home w) = Some oldId)) as [Hact|Hact];
    destruct (bool_decide (oldId ∈ favorites w)) eqn:Hstar;
    [apply bool_decide_eq_true in Hstar|apply bool_decide_eq_false in Hstar
    |apply bool_decide_eq_true in Hstar|apply bool_decide_eq_false in Hstar];
    cbn; repeat (split; [done|]); done.
Qed.

Lemma rename_follows_selection_witness :
  selectedPath (home (final (exec serviceUp (renameFlow workspace "a.py" "c.py") workspace)))
  = Some "c.py".
Proof.
  destruct (rename_follows_selection serviceUp workspace "a.py" "c.py"
              [strategyFile "a.py"; strategyFile "b.py"] eq_refl eq_refl)
    as (_ & _ & _ & H & _).
  by apply H.
Defined.

(** ** Deleting from the sidebar *)

(** X21: the delete button asks for the file name first.  A cancelled
    prompt does nothing; a typed name that differs from the file name,
    surrounding white space apart, shows the mismatch alert and makes no
    call; a matching name sends the delete.  When the service refuses,
    its error is shown in an alert and nothing else changes. *)
Theorem confirmDelete_guards (o : Remote) (c w : World) (p : string) :
  exec o (confirmDelete c p None) w = {| final := w; calls := []; rejection := None |}
  ∧ (∀ t, trim t ≠ baseName p →
       exec o (confirmDelete c p (Some t)) w
       = {| final := withAlerts (λ l, l ++ ["Name mismatch. File was not deleted."]) w;
            calls := []; rejection := None |})
  ∧ (∀ t, trim t = baseName p →
       ∃ rest, calls (exec o (confirmDelete c p (Some t)) w) = call (PostDelete p) :: rest)
  ∧ (∀ t e, trim t = baseName p → o _ (PostDelete p) = Rejected e →
       exec o (confirmDelete c p (Some t)) w
       = {| final := withAlerts (λ l, l ++ [errText e]) w;
            calls := [call (PostDelete p)]; rejection := None |}).
Proof.
  split; [done|]. split; [|split].
  - intros t Hne. unfold confirmDelete. by rewrite decide_False.
  - intros t Heq. unfold confirmDelete, deleteStrategy, await. rewrite decide_True by done.
    cbn [tryCatch exec]. unfold after. cbn [calls]. by eexists.
  - intros t e Heq Ho. unfold confirmDelete, deleteStrategy. rewrite decide_True by done.
    rewrite exec_tryCatch, (exec_await_failed o _ _ w e Ho). reflexivity.
Qed.

Lemma confirmDelete_guards_witness :
  exec serviceUp (confirmDelete workspace "a.py" (Some "a")) workspace
  = {| final := withAlerts (λ l, l ++ ["Name mismatch. File was not deleted."]) workspace;
       calls := []; rejection := None |}.
Proof.
  destruct (confirmDelete_guards serviceUp workspace workspace "a.py") as (_ & H & _).
  apply H. discriminate.
Defined.

(** ** The polling effect *)





(** ** Selecting a strategy *)

(** Selecting another strategy runs the hydration effect for it; the
    polling effect that may follow only raises the loading flag, and
    issues nothing outside the paper view. *)
Lemma step_select_other (s : System) (id : string) :
  selectedPath (home (world s)) ≠ Some id →
  let s0 := onWorld (onHome (setSelectedPath (Some id))) s in
  let sh := hydrationEffect (home (world s0)) s0 in
  (home (world (step s (Select id))) = home (world sh)
   ∨ home (world (step s (Select id))) = setPaperLoading true (home (world sh)))
  ∧ (view (home (world sh)) ≠ Paper → issued (step s (Select id)) = issued sh).
Proof.
  intros Hother s0 sh. rewrite step_select. fold s0. unfold commit.
  rewrite (decide_False (P := selectedPath (home (world s0)) = selectedPath (home (world s))))
    by (intros E; apply Hother; symmetry; exact E).
  fold sh. clearbody sh. clearbody s0.
  assert (home (world (onWorld reconcile sh)) = home (world sh)) as Hh
    by (by rewrite world_onWorld, reconcile_home).
  assert (issued (onWorld reconcile sh) = issued sh) as Hi by done.
  set (s2 := onWorld reconcile sh) in *. clearbody s2.
  match goal with |- context [decide ?P] => destruct (decide P) as [_|_] end.
  - rewrite Hh, Hi. by split; [left|].
  - split.
    + destruct (pollingEffect_world (home (world s2)) s2) as [->| ->];
        rewrite ?home_onHome, Hh; [by left|by right].
    + intros Hv. unfold pollingEffect. rewrite Hh, decide_False by done.
      exact Hi.
Qed.

(** X24: selecting another strategy restores the view state cached for
    it: its backtest result, its tuning text, best run, error and ranges
    (the ranges computed from its cached parameter specification when it
    has no tuning entry), its paper session, error and state, each empty
    when nothing is cached.  Outside the paper view the selection fetches
    the code exactly when no code is cached for it and the parameters
    exactly when no specification is cached, and nothing else. *)
Theorem select_restores_cached_view (s : System) (id : string) :
  let c := home (world s) in
  selectedPath c ≠ Some id →
  id ≠ "" →
  let s' := step s (Select id) in
  let h := home (world s') in
  selectedPath h = Some id
  ∧ result h = backtestByStrategy c !! id
  ∧ mlBestResult h = mlByStrategy c !! id ≫= bestRun
  ∧ optuna h = default "" (resultText <$> mlByStrategy c !! id)
  ∧ mlError h = default "" (ml_error <$> mlByStrategy c !! id)
  ∧ mlRanges h
    = match mlByStrategy c !! id with
      | Some entry => ranges entry
      | None => default ∅ (paramRanges <$> paramSpecsByStrategy c !! id)
      end
  ∧ paperSession h = cachedSession c id
  ∧ paperError h = default "" (paper_error <$> paperByStrategy c !! id)
  ∧ paperState h = paperByStrategy c !! id ≫= state
  ∧ (view c ≠ Paper →
     issued s'
     = issued s
       ++ match codeByStrategy c !! id with
          | Some _ => []
          | None => [call (GetStrategy id)]
          end
       ++ match paramSpecsByStrategy c !! id with
          | Some _ => []
          | None => [call (GetStrategyParams id)]
          end).
Proof.
  intros c Hother Hne s' h. subst s' h.
  destruct (step_select_other s id Hother) as [Hhome Hissued].
  set (s0 := onWorld (onHome (setSelectedPath (Some id))) s) in *.
  assert (truthyPath (selectedPath (home (world s0))) = Some id) as Hsel.
  { apply truthyPath_Some. by split. }
  pose proof (hydrationEffect_restores (home (world s0)) s0 id Hsel) as Hres.
  destruct (hydrationEffect_session (home (world s0)) s0 id Hsel) as (_ & Hview & Hsel').
  cbv zeta in Hres.
  change (backtestByStrategy (home (world s0))) with (backtestByStrategy c) in Hres.
  change (mlByStrategy (home (world s0))) with (mlByStrategy c) in Hres.
  change (paperByStrategy (home (world s0))) with (paperByStrategy c) in Hres.
  change (codeByStrategy (home (world s0))) with (codeByStrategy c) in Hres.
  change (paramSpecsByStrategy (home (world s0))) with (paramSpecsByStrategy c) in Hres.
  change (cachedSession (home (world s0)) id) with (cachedSession c id) in Hres.
  change (issued s0) with (issued s) in Hres.
  change (view (home (world s0))) with (view c) in Hview.
  change (selectedPath (home (world s0))) with (Some id) in Hsel'.
  set (sh := hydrationEffect (home (world s0)) s0) in *. clearbody sh. clear Hsel.
  clearbody s0.
  destruct Hres as (H1 & H2 & H3 & H4 & H5 & H6 & H7 & H8 & H9).
  rewrite Hview in Hissued.
  set (s' := step s (Select id)) in *. clearbody s'.
  split; [|split; [|split; [|split; [|split; [|split; [|split; [|split; [|split]]]]]]]];
    try (destruct Hhome as [->| ->]; cbn; congruence).
  intros Hv. by rewrite (Hissued Hv), H9.
Qed.

Lemma select_restores_cached_view_witness :
  let h := home (world (step pageReady (Select "b.py"))) in
  result h = None ∧ optuna h = "" ∧ paperSession h = "".
Proof.
  intros h.
  destruct (select_restores_cached_view pageReady "b.py")
    as (_ & H1 & _ & H2 & _ & _ & H3 & _); [vm_compute; discriminate|discriminate|].
  subst h. rewrite H1, H2, H3. vm_compute.
  split; [reflexivity|split; reflexivity].
Defined.

(** X25: selecting the strategy that is already active runs no effect:
    no call is issued, the calls in flight and the timer are as before,
    and the page state is untouched but for the sidebar's
    reconciliation. *)
Theorem reselecting_active_strategy_is_idle (s : System) (id : string) :
  selectedPath (home (world s)) = Some id →
  step s (Select id) = onWorld reconcile s.
Proof.
  intros Hsel.
  assert (handle (Select id) s = s) as Hsame.
  { destruct s as [[h ? ? ? ? ? ? ? ?] ? ? ? ?]. destruct h.
    cbn in Hsel. subst. reflexivity. }
  unfold step. rewrite Hsame. by apply commit_quiet.
Qed.

Lemma reselecting_active_strategy_is_idle_witness :
  issued (step pageReady (Select "a.py")) = issued pageReady.
Proof.
  rewrite (reselecting_active_strategy_is_idle pageReady "a.py");
    [apply issued_onWorld|vm_compute; reflexivity].
Defined.

(** ** Mounting *)

(** The hydration effect leaves the registry and the stars alone. *)
Lemma hydrationEffect_registry (c : HomePage) (s : System) :
  strategies (home (world (hydrationEffect c s))) = strategies (home (world s))
  ∧ favorites (world (hydrationEffect c s)) = favorites (world s).
Proof.
  destruct (truthyPath (selectedPath c)) as [id|] eqn:Hsel.
  - rewrite (hydrationEffect_active c s id Hsel). cbv zeta.
    destruct (paramSpecsByStrategy c !! id); destruct (codeByStrategy c !! id);
      destruct (mlByStrategy c !! id);
      rewrite ?run_world, ?world_onWorld, ?run_world, ?world_onWorld;
      by split.
  - by rewrite (hydrationEffect_idle c s Hsel).
Qed.

(** X26: when the registry load of the mount effect is answered with a
    registry whose first strategy has a non-empty path, that strategy
    becomes active and its code and its parameters are fetched, in this
    order; the stars loaded from the store are pruned to the listed
    strategies.  When the load fails, the error is logged to the console,
    nothing is selected, and no strategy is fetched.  (The trace holds
    the calls of the workspace operations; the dataset listing of the
    same effect is not among them.) *)
Theorem mount_selects_first_strategy (stored : option (list string)) (o : Remote) :
  (∀ f fs, o _ GetStrategies = Fulfilled (f :: fs) → path f ≠ "" →
       let s := step (mounted stored) (Settle 0 o) in
       strategies (home (world s)) = f :: fs
       ∧ selectedPath (home (world s)) = Some (path f)
       ∧ issued s = [call GetStrategies; call (GetStrategy (path f));
                     call (GetStrategyParams (path f))]
       ∧ favorites (world s)
         = filter (λ p, p ∈ registryIds (f :: fs)) (default [] stored)
       ∧ timer s = None)
  ∧ (∀ e, o _ GetStrategies = Rejected e →
       let s := step (mounted stored) (Settle 0 o) in
       consoleErrors (world s) = [e]
       ∧ selectedPath (home (world s)) = None
       ∧ issued s = [call GetStrategies]
       ∧ tasks s = []
       ∧ unhandled s = []).
Proof.
  split.
  - intros f fs Ho Hne s. subst s. unfold step.
    change (handle (Settle 0 o) (mounted stored))
      with (run (tryCatch
                   (match o _ GetStrategies with
                    | Fulfilled files =>
                        Update (onHome (setStrategies files))
                          match files with
                          | [] => Update (onHome (setSelectedPath None)) Return
                          | first :: _ =>
                              Update (onHome (setSelectedPath (Some (path first)))) Return
                          end
                    | Rejected e => Throw e
                    end) logError)
              {| world := initialWorld stored; tasks := []; timer := None;
                 issued := [call GetStrategies]; unhandled := [] |}).
    rewrite Ho. cbn [tryCatch run].
    set (s0 := onWorld (onHome (setSelectedPath (Some (path f)))) _).
    assert (truthyPath (selectedPath (home (world s0))) = Some (path f)) as Hsel.
    { apply truthyPath_Some. by split. }
    pose proof (hydrationEffect_restores (home (world s0)) s0 (path f) Hsel) as Hres.
    destruct (hydrationEffect_session (home (world s0)) s0 (path f) Hsel)
      as (_ & Hview & Hsel').
    pose proof (hydrationEffect_timer (home (world s0)) s0) as Htimer.
    destruct (hydrationEffect_registry (home (world s0)) s0) as [Hreg Hfav].
    change (strategies (home (world s0))) with (f :: fs) in Hreg.
    change (favorites (world s0)) with (default [] stored) in Hfav.
    cbv zeta in Hres. destruct Hres as (_ & _ & _ & _ & Hsid & _ & _ & _ & Hissued).
    change (cachedSession (home (world s0)) (path f)) with "" in Hsid.
    change (codeByStrategy (home (world s0)) !! path f) with (@None string) in Hissued.
    change (paramSpecsByStrategy (home (world s0)) !! path f)
      with (@None (list StrategyParamSpec)) in Hissued.
    change (issued s0) with [call GetStrategies] in Hissued.
    change (view (home (world s0))) with Coding in Hview.
    change (selectedPath (home (world s0))) with (Some (path f)) in Hsel'.
    change (timer s0) with (@None Async) in Htimer.
    unfold commit.
    rewrite (decide_False (P := selectedPath (home (world s0))
                                = selectedPath (home (initialWorld stored)))) by done.
    set (sh := hydrationEffect (home (world s0)) s0) in *. clearbody sh. clearbody s0.
    rewrite decide_True
      by (rewrite world_onWorld, reconcile_home, Hview, Hsid; by split).
    rewrite world_onWorld, reconcile_home, issued_onWorld, timer_onWorld.
    rewrite reconcile_favorites by (by rewrite Hreg).
    by rewrite Hreg, Hsel', Hissued, Hfav, Htimer.
  - intros e Ho s. subst s. unfold step.
    change (handle (Settle 0 o) (mounted stored))
      with (run (tryCatch
                   (match o _ GetStrategies with
                    | Fulfilled files =>
                        Update (onHome (setStrategies files))
                          match files with
                          | [] => Update (onHome (setSelectedPath None)) Return
                          | first :: _ =>
                              Update (onHome (setSelectedPath (Some (path first)))) Return
                          end
                    | Rejected e => Throw e
                    end) logError)
              {| world := initialWorld stored; tasks := []; timer := None;
                 issued := [call GetStrategies]; unhandled := [] |}).
    rewrite Ho. cbn [tryCatch run logError].
    rewrite commit_quiet by done. by cbn.
Qed.
